(** * Kobold-Swap: discovery, config synthesis and process supervision

    A shallow embedding of [kobold-swap.py] and the properties of its
    discovery -> synthesis -> supervision pipeline.

    Conventions of the embedding.
    - Python [str] values are [string]s; file names are taken to be ASCII.
    - A [pathlib.Path] is the list of its components.
    - A Python [dict] is an association list in insertion order (the
      program dumps it with [sort_keys=False], so the order is observable).
    - The file system seen by the program is a finite map from the path
      strings the program uses to the objects found there.
    - Effects (printing, file system, child process, exceptions) are threaded
      through a state-and-exception monad [M] over a [world]; what the
      operating system decides (whether a write fails, when the child exits,
      when the user interrupts) is read from the world.
    - In the pipeline standard output accepts every line, [stat] fails by
      absence only and interrupts arrive during the blocking wait only; the
      part on the functions called on their own lifts the three. *)

From Stdlib Require Import ZArith Ascii String List Lia Bool.
From stdpp Require Import base option list strings gmap.

Import ListNotations.
Set Warnings "-register-all".
Local Open Scope string_scope.
Local Open Scope list_scope.

(** ** Strings *)

Module Str.

(** The line feed produced by the escape [\n] of a Python literal. *)
Definition nl : string := String (ascii_of_nat 10) EmptyString.

(** [s.endswith(suf)] *)
Fixpoint endswith (s suf : string) : bool :=
  if String.eqb s suf then true
  else match s with
       | EmptyString => false
       | String _ s' => endswith s' suf
       end.

(** [s.rfind(c)] for a one-character [c]; [None] stands for [-1]. *)
Fixpoint rfind (s : string) (c : ascii) : option nat :=
  match s with
  | EmptyString => None
  | String a s' =>
      match rfind s' c with
      | Some i => Some (S i)
      | None => if Ascii.eqb a c then Some 0 else None
      end
  end.

(** [s[:i]] *)
Definition slice_to (s : string) (i : nat) : string := substring 0 i s.

(** ASCII case folding, as used to match names on a case-insensitive
    platform. *)
Definition lower_ascii (a : ascii) : ascii :=
  let n := nat_of_ascii a in
  if (65 <=? n)%nat && (n <=? 90)%nat then ascii_of_nat (n + 32) else a.

Fixpoint lower (s : string) : string :=
  match s with
  | EmptyString => EmptyString
  | String a s' => String (lower_ascii a) (lower s')
  end.

(** [s.startswith(p)] *)
Fixpoint startswith (s p : string) {struct p} : bool :=
  match p with
  | EmptyString => true
  | String a p' =>
      match s with
      | EmptyString => false
      | String b s' => Ascii.eqb a b && startswith s' p'
      end
  end.

(** [needle in s] *)
Fixpoint contains (s needle : string) : bool :=
  if startswith s needle then true
  else match s with
       | EmptyString => false
       | String _ s' => contains s' needle
       end.

(** Number of (possibly overlapping) positions of [s] at which [needle]
    starts. *)
Fixpoint occurrences (s needle : string) : nat :=
  (if startswith s needle then 1 else 0) +
  match s with
  | EmptyString => 0
  | String _ s' => occurrences s' needle
  end.

End Str.

(** ** Paths ([pathlib]) *)

Definition Path := list string.

(** [PurePath.name]: the final component. *)
Definition Path_name (p : Path) : string := List.last p EmptyString.

(** [PurePath.stem] (CPython 3.8 to 3.13):
    [i = name.rfind('.'); name[:i] if 0 < i < len(name) - 1 else name]. *)
Definition Path_stem (p : Path) : string :=
  let name := Path_name p in
  match Str.rfind name "."%char with
  | Some i =>
      if (0 <? i)%nat && (i <? String.length name - 1)%nat
      then Str.slice_to name i
      else name
  | None => name
  end.

(** [p / child] *)
Definition Path_div (p : Path) (child : string) : Path := p ++ [child].

(** ** File system *)

(** What a directory listing shows of an entry: its name and whether it is a
    regular file or a subdirectory (with its own listing).  File contents
    inside [configs] are never read by the program. *)
Inductive dirent : Type :=
| DFile (name : string)
| DDir (name : string) (children : list dirent).

Definition dirent_name (e : dirent) : string :=
  match e with
  | DFile n => n
  | DDir n _ => n
  end.

Definition dirent_is_file (e : dirent) : bool :=
  match e with
  | DFile _ => true
  | DDir _ _ => false
  end.

(** What is found at a path: a regular file with its bytes, or a directory
    with its entries in the order the operating system enumerates them. *)
Inductive fs_object : Type :=
| RegularFile (content : string)
| Directory (entries : list dirent).

(** ** Python dictionaries (insertion ordered) *)

Definition dict (V : Type) : Type := list (string * V).

(** [d[k] = v]: an existing key keeps its position, a new key goes last. *)
Fixpoint dict_setitem {V : Type} (d : dict V) (k : string) (v : V) : dict V :=
  match d with
  | [] => [(k, v)]
  | (k', v') :: d' =>
      if String.eqb k' k then (k', v) :: d'
      else (k', v') :: dict_setitem d' k v
  end.

(** [d.update(e)] *)
Definition dict_update {V : Type} (d e : dict V) : dict V :=
  fold_left (fun acc kv => dict_setitem acc (fst kv) (snd kv)) e d.

Definition dict_keys {V : Type} (d : dict V) : list string := map fst d.

Fixpoint dict_get {V : Type} (d : dict V) (k : string) : option V :=
  match d with
  | [] => None
  | (k', v) :: d' => if String.eqb k' k then Some v else dict_get d' k
  end.

(** The three levels of the generated document. *)
Definition entry_dict : Type := dict string.
Definition models_dict : Type := dict entry_dict.
Definition config_dict : Type := dict models_dict.

(** ** Pure part of the program *)

(** [extract_filename(file_path)] *)
Definition extract_filename (file_path : Path) : string := Path_stem file_path.

Definition cmd_prefix : string :=
  "kcpp-extracted/koboldcpp-launcher --config configs/".
Definition cmd_middle : string :=
  ".kcpps --port ${PORT} --hordemodelname ".

(** The f-string of [generate_config_entry]; [${{PORT}}] in an f-string is
    the text [${PORT}]. *)
Definition cmd_of (filename : string) : string :=
  cmd_prefix ++ filename ++ cmd_middle ++ filename.

Definition key_of (filename : string) : string := "koboldcpp/" ++ filename.

Definition entry_of (filename : string) : entry_dict :=
  [("cmd", cmd_of filename); ("checkEndpoint", "/ping")].

(** [generate_config_entry(filename)] *)
Definition generate_config_entry (filename : string) : models_dict :=
  [(key_of filename, entry_of filename)].

(** The loop of [generate_config_yaml] that fills [models]. *)
Definition build_models (kcpps_files : list Path) : models_dict :=
  fold_left
    (fun models kcpps_file =>
       let filename := extract_filename kcpps_file in
       let entry := generate_config_entry filename in
       dict_update models entry)
    kcpps_files [].

(** [config = {"models": models}] *)
Definition build_config (kcpps_files : list Path) : config_dict :=
  [("models", build_models kcpps_files)].

(** ** The world the program runs in *)

(** The argument of [SystemExit]. *)
Inductive exit_arg : Type :=
| ExitNone
| ExitInt (n : Z)
| ExitStr (s : string).

(** The exceptions of the program.  [PyError msg] stands for an instance of
    any subclass of [Exception] ([OSError], [UnicodeError], [YAMLError], ...)
    whose [str()] is [msg]; [SystemExit] and [KeyboardInterrupt] derive from
    [BaseException] only. *)
Inductive exn : Type :=
| SystemExit (code : exit_arg)
| KeyboardInterrupt
| PyError (msg : string).

Definition is_Exception (e : exn) : bool :=
  match e with
  | PyError _ => true
  | SystemExit _ | KeyboardInterrupt => false
  end.

Definition is_KeyboardInterrupt (e : exn) : bool :=
  match e with
  | KeyboardInterrupt => true
  | SystemExit _ | PyError _ => false
  end.

(** [str(e)] inside an f-string. *)
Definition exn_str (e : exn) : string :=
  match e with
  | PyError msg => msg
  | SystemExit (ExitStr s) => s
  | SystemExit _ | KeyboardInterrupt => EmptyString
  end.

(** What the program does to its surroundings, in order. *)
Inductive event : Type :=
| EvPrint (line : string)           (* print(line) on standard output *)
| EvStderr (text : string)          (* text on standard error *)
| EvMakedirs (path : string)        (* os.makedirs(path) *)
| EvRun (argv : list string)        (* subprocess.run(argv) *)
| EvOpenW (path : string)           (* open(path, 'w') *)
| EvPopen (argv : list string)      (* subprocess.Popen(argv) *)
| EvWait                            (* Popen.wait() *)
| EvTerminate.                      (* Popen.terminate() *)

(** How [subprocess.run] of the extraction step ends: it raises (the
    executable cannot be started), or it runs to completion and has or has
    not created the directory. *)
Inductive run_outcome : Type :=
| RunRaises (msg : string)
| RunCompletes (creates_dir : bool).

(** How writing the output file fails: [open] raises and the file is
    untouched, or the dump raises after [open] truncated the file and
    [written] reached it. *)
Inductive write_failure : Type :=
| OpenFails (msg : string)
| DumpFails (msg : string) (written : string).

(** What ends a blocking [Popen.wait()]: the child exits, or the user
    interrupts.  On an interrupt [wait] gives the child a short grace period
    before it re-raises; [exited_meanwhile] tells whether the child was
    reaped in it. *)
Inductive wait_event : Type :=
| WChildExits
| WInterrupt (exited_meanwhile : bool).

Inductive child_state : Type :=
| NoChild
| ChildRunning
| ChildExited.

Record world : Type := mkWorld {
  platform_system : string;               (* platform.system() *)
  script_dir : string;                    (* abspath(dirname(__file__)) *)
  yaml_dump : config_dict -> string;      (* yaml.dump(config, default_flow_style=False, sort_keys=False) *)
  fs : gmap string fs_object;
  makedirs_error : option string;         (* os.makedirs raises *)
  unpack_outcome : run_outcome;
  write_error : option write_failure;
  popen_error : option string;            (* subprocess.Popen raises *)
  wait_events : list wait_event;          (* what ends each blocking wait, in order *)
  child : child_state;
  trace : list event
}.

Definition set_fs (f : gmap string fs_object) (w : world) : world :=
  mkWorld (platform_system w) (script_dir w) (yaml_dump w) f
          (makedirs_error w) (unpack_outcome w) (write_error w) (popen_error w)
          (wait_events w) (child w) (trace w).

Definition set_child (c : child_state) (w : world) : world :=
  mkWorld (platform_system w) (script_dir w) (yaml_dump w) (fs w)
          (makedirs_error w) (unpack_outcome w) (write_error w) (popen_error w)
          (wait_events w) c (trace w).

Definition set_wait_events (l : list wait_event) (w : world) : world :=
  mkWorld (platform_system w) (script_dir w) (yaml_dump w) (fs w)
          (makedirs_error w) (unpack_outcome w) (write_error w) (popen_error w)
          l (child w) (trace w).

Definition log (e : event) (w : world) : world :=
  mkWorld (platform_system w) (script_dir w) (yaml_dump w) (fs w)
          (makedirs_error w) (unpack_outcome w) (write_error w) (popen_error w)
          (wait_events w) (child w) (trace w ++ [e]).

(** Whether the platform is Windows: executables carry [.exe], the path
    separator is a backslash and name matching ignores case. *)
Definition is_windows (w : world) : bool :=
  String.eqb (platform_system w) "Windows".

(** ** The monad of the program: state, exceptions, and blocking forever *)

Inductive outcome (A : Type) : Type :=
| Ret (a : A) (w : world)          (* returns [a] *)
| Raise (e : exn) (w : world)      (* raises [e] *)
| Hang (w : world).                (* blocks forever *)

Arguments Ret {A} a w.
Arguments Raise {A} e w.
Arguments Hang {A} w.

Definition M (A : Type) : Type := world -> outcome A.

Definition ret {A : Type} (a : A) : M A := fun w => Ret a w.

Definition bind {A B : Type} (m : M A) (k : A -> M B) : M B :=
  fun w =>
    match m w with
    | Ret a w' => k a w'
    | Raise e w' => Raise e w'
    | Hang w' => Hang w'
    end.

Definition raise {A : Type} (e : exn) : M A := fun w => Raise e w.

(** [try: body except <class> as e: handler(e)] where [catches] tells which
    exceptions the class covers. *)
Definition try_except {A : Type} (body : M A) (catches : exn -> bool)
           (handler : exn -> M A) : M A :=
  fun w =>
    match body w with
    | Raise e w' => if catches e then handler e w' else Raise e w'
    | r => r
    end.

Declare Scope py_scope.
Delimit Scope py_scope with py.
Notation "x <- m ;; k" := (bind m (fun x => k))
  (at level 100, m at next level, right associativity) : py_scope.
Notation "m ;;; k" := (bind m (fun _ => k))
  (at level 100, right associativity) : py_scope.
Local Open Scope py_scope.

(** ** Library calls *)

(** [print(line)] *)
Definition print (line : string) : M unit :=
  fun w => Ret tt (log (EvPrint line) w).

(** [os.path.exists(path)]; also [Path(path).exists()] for a path on which
    [stat] fails by absence only (otherwise see [Path_exists_in]). *)
Definition os_path_exists (path : string) : M bool :=
  fun w => Ret (bool_decide (is_Some (fs w !! path))) w.

(** [os.makedirs(path)] for a path that does not exist. *)
Definition os_makedirs (path : string) : M unit :=
  fun w =>
    let w1 := log (EvMakedirs path) w in
    match makedirs_error w with
    | Some msg => Raise (PyError msg) w1
    | None => Ret tt (set_fs (<[path := Directory []]> (fs w)) w1)
    end.

(** [quit(code)]: the [site] module's [Quitter] raises [SystemExit(code)]. *)
Definition quit {A : Type} (code : exit_arg) : M A := raise (SystemExit code).

(** [sys.exit(code)] *)
Definition sys_exit {A : Type} (code : exit_arg) : M A := raise (SystemExit code).

(** [subprocess.run(argv)] of the extraction step, which is told to create
    the directory named by its last argument.  Of what the step does to the
    files only the appearance of that directory is recorded: the program
    never looks at what is in it. *)
Definition subprocess_run (argv : list string) : M unit :=
  fun w =>
    let w1 := log (EvRun argv) w in
    match unpack_outcome w with
    | RunRaises msg => Raise (PyError msg) w1
    | RunCompletes true =>
        Ret tt (set_fs (<[List.last argv EmptyString := Directory []]> (fs w)) w1)
    | RunCompletes false => Ret tt w1
    end.

(** The pattern [*suffix] of [fnmatch]: any name that ends with [suffix],
    hidden names included; case is ignored on Windows. *)
Definition fnmatch_star (windows : bool) (name suffix : string) : bool :=
  if windows then Str.endswith (Str.lower name) (Str.lower suffix)
  else Str.endswith name suffix.

(** [Path(dir).glob("*" + suffix)]: the entries of the directory itself whose
    name matches, files and subdirectories alike, in enumeration order; no
    result when [dir] is not a directory. *)
Definition Path_glob_star (dir : string) (suffix : string) : M (list Path) :=
  fun w =>
    match fs w !! dir with
    | Some (Directory entries) =>
        Ret (map (fun e => Path_div [dir] (dirent_name e))
                 (List.filter
                    (fun e => fnmatch_star (is_windows w) (dirent_name e) suffix)
                    entries)) w
    | Some (RegularFile _) | None => Ret [] w
    end.

(** [with open(output_file, 'w', encoding='utf-8') as f: yaml.dump(config, f, ...)]
    The failures are those of [open] and of the dump, [Exception]s all of
    them; for an interrupt during the write see [open_and_dump_in]. *)
Definition open_and_dump (output_file : string) (config : config_dict) : M unit :=
  fun w =>
    let w1 := log (EvOpenW output_file) w in
    match fs w !! output_file with
    | Some (Directory _) =>
        Raise (PyError ("[Errno 21] Is a directory: '" ++ output_file ++ "'")) w1
    | Some (RegularFile _) | None =>
        match write_error w with
        | Some (OpenFails msg) => Raise (PyError msg) w1
        | Some (DumpFails msg written) =>
            Raise (PyError msg)
                  (set_fs (<[output_file := RegularFile written]> (fs w)) w1)
        | None =>
            Ret tt (set_fs (<[output_file := RegularFile (yaml_dump w config)]> (fs w)) w1)
        end
    end.

(** [os.path.join(dir, name)] for an absolute [dir] and a plain file name. *)
Definition os_path_join (windows : bool) (dir name : string) : string :=
  if windows then
    if Str.endswith dir "\" || Str.endswith dir "/" then dir ++ name
    else dir ++ "\" ++ name
  else
    if Str.endswith dir "/" then dir ++ name
    else dir ++ "/" ++ name.

(** The object returned by [subprocess.Popen]. *)
Inductive Popen : Type :=
| PopenObj (argv : list string).

(** [subprocess.Popen(argv)] *)
Definition subprocess_Popen (argv : list string) : M Popen :=
  fun w =>
    let w1 := log (EvPopen argv) w in
    match popen_error w with
    | Some msg => Raise (PyError msg) w1
    | None => Ret (PopenObj argv) (set_child ChildRunning w1)
    end.

(** [process.wait()]: returns at once when the child was already reaped;
    otherwise it blocks until the child exits or the user interrupts, and
    for ever when neither happens. *)
Definition Popen_wait (process : Popen) : M unit :=
  fun w =>
    let w1 := log EvWait w in
    match child w with
    | ChildRunning =>
        match wait_events w with
        | WChildExits :: rest =>
            Ret tt (set_child ChildExited (set_wait_events rest w1))
        | WInterrupt true :: rest =>
            Raise KeyboardInterrupt (set_child ChildExited (set_wait_events rest w1))
        | WInterrupt false :: rest =>
            Raise KeyboardInterrupt (set_wait_events rest w1)
        | [] => Hang w1
        end
    | NoChild | ChildExited => Ret tt w1
    end.

(** [process.terminate()]: asks the child to terminate; nothing is delivered
    to a child that was already reaped. *)
Definition Popen_terminate (process : Popen) : M unit :=
  fun w => Ret tt (log EvTerminate w).

(** ** The program *)

Definition is_empty {A : Type} (l : list A) : bool :=
  match l with
  | [] => true
  | _ :: _ => false
  end.

(** [find_kcpps_files(configs_dir="configs")] *)
Definition find_kcpps_files (configs_dir : string) : M (list Path) :=
  found <- os_path_exists configs_dir ;;
  if negb found then
    print ("Error: Configs directory '" ++ configs_dir ++ "' not found.") ;;;
    ret []
  else
    kcpps_files <- Path_glob_star configs_dir ".kcpps" ;;
    if is_empty kcpps_files then
      print ("Warning: No .kcpps files found in '" ++ configs_dir ++ "'.") ;;;
      ret []
    else
      ret kcpps_files.

(** [generate_config_yaml(kcpps_files, output_file="config.yaml")] *)
Definition generate_config_yaml (kcpps_files : list Path) (output_file : string)
  : M bool :=
  if is_empty kcpps_files then
    print "No .kcpps files to process." ;;;
    ret false
  else
    let config := build_config kcpps_files in
    try_except
      (open_and_dump output_file config ;;;
       print ("Successfully generated " ++ output_file) ;;;
       ret true)
      is_Exception
      (fun e =>
         print ("Error writing " ++ output_file ++ ": " ++ exn_str e) ;;;
         ret false).

(** The path [launch_llama_swap] looks for. *)
Definition llama_swap_executable (w : world) : string :=
  let basepath := script_dir w in
  if String.eqb (platform_system w) "Windows"
  then os_path_join (is_windows w) basepath "llama-swap.exe"
  else os_path_join (is_windows w) basepath "llama-swap".

(** [launch_llama_swap()]; [None] is Python's [None]. *)
Definition launch_llama_swap : M (option Popen) :=
  try_except
    (fun w =>
       let executable := llama_swap_executable w in
       (found <- os_path_exists executable ;;
        if negb found then
          print ("Warning: " ++ executable ++ " not found. Skipping llama-swap launch.") ;;;
          ret None
        else
          print ("Launching " ++ executable ++ "...") ;;;
          process <- subprocess_Popen [executable] ;;
          ret (Some process)) w)
    is_Exception
    (fun e =>
       print ("Error launching llama-swap: " ++ exn_str e) ;;;
       ret None).

Definition configs_created_message : string :=
  "Configs folder created, place your .kcpps files here." ++ Str.nl ++
  " Make sure they are set to not show the launcher and don't launch a browser".

(** [main()] *)
Definition main : M unit :=
  print "Kobold Swap" ;;;
  found <- os_path_exists "configs" ;;
  (if negb found then
     os_makedirs "configs" ;;;
     print configs_created_message ;;;
     quit (ExitStr EmptyString)
   else ret tt) ;;;
  extracted <- os_path_exists "kcpp-extracted" ;;
  (if negb extracted then
     subprocess_run ["koboldcpp"; "--unpack"; "kcpp-extracted"]
   else ret tt) ;;;
  kcpps_files <- find_kcpps_files "configs" ;;
  if is_empty kcpps_files then
    print "No .kcpps files found. Exiting."
  else
    success <- generate_config_yaml kcpps_files "config.yaml" ;;
    if success then
      print "Config generation completed successfully!" ;;;
      llama_swap_process <- launch_llama_swap ;;
      match llama_swap_process with
      | Some process =>
          print "llama-swap launched successfully!" ;;;
          try_except
            (Popen_wait process)
            is_KeyboardInterrupt
            (fun _ =>
               print (Str.nl ++ "Shutting down llama-swap...") ;;;
               Popen_terminate process ;;;
               Popen_wait process)
      | None => ret tt
      end
    else
      print "Config generation failed." ;;;
      sys_exit (ExitInt 1).

(** How the process ends. *)
Inductive termination : Type :=
| ExitStatus (n : Z)       (* the process exits with this status *)
| KilledByInterrupt        (* an unhandled KeyboardInterrupt ends the process *)
| NeverExits.              (* the process blocks for ever *)

Definition traceback (e : exn) : string :=
  "Traceback (most recent call last): " ++ exn_str e.

(** [if __name__ == "__main__": main()] under the interpreter: a normal
    return exits with status 0; [SystemExit] exits with its integer code,
    with 0 for [None], and for any other object prints it on standard error
    and exits with status 1; another exception prints a traceback and exits
    with status 1, an interrupt ends the process as interrupted. *)
Definition run_script (w : world) : termination * world :=
  match main w with
  | Ret _ w' => (ExitStatus 0, w')
  | Raise (SystemExit ExitNone) w' => (ExitStatus 0, w')
  | Raise (SystemExit (ExitInt n)) w' => (ExitStatus n, w')
  | Raise (SystemExit (ExitStr s)) w' => (ExitStatus 1, log (EvStderr s) w')
  | Raise KeyboardInterrupt w' =>
      (KilledByInterrupt, log (EvStderr (traceback KeyboardInterrupt)) w')
  | Raise (PyError msg) w' => (ExitStatus 1, log (EvStderr (traceback (PyError msg))) w')
  | Hang w' => (NeverExits, w')
  end.

(** ** Observations on a run *)

Definition printed (line : string) (w : world) : Prop :=
  In (EvPrint line) (trace w).

(** The contents of the regular file at [path], if there is one. *)
Definition file_content (path : string) (w : world) : option string :=
  match fs w !! path with
  | Some (RegularFile c) => Some c
  | Some (Directory _) | None => None
  end.

(** A world before the program has done anything. *)
Definition initial_world (system dir : string) (dump : config_dict -> string)
           (files : gmap string fs_object) (mk : option string) (un : run_outcome)
           (wr : option write_failure) (po : option string) (ev : list wait_event)
  : world :=
  mkWorld system dir dump files mk un wr po ev NoChild [].

(** A stand-in serializer for running examples: one line per key. *)
Definition dump_entry (e : entry_dict) : string :=
  String.concat EmptyString (map (fun kv => ("    " ++ fst kv ++ ": " ++ snd kv ++ Str.nl)%string) e).

Definition dump_models (m : models_dict) : string :=
  String.concat EmptyString (map (fun kv => ("  " ++ fst kv ++ ":" ++ Str.nl ++ dump_entry (snd kv))%string) m).

Definition example_dump (c : config_dict) : string :=
  String.concat EmptyString (map (fun kv => (fst kv ++ ":" ++ Str.nl ++ dump_models (snd kv))%string) c).

(** ** Vocabulary of the statements *)

Definition mk_item (filename : string) : string * entry_dict :=
  (key_of filename, entry_of filename).

Definition add_file (models : models_dict) (kcpps_file : Path) : models_dict :=
  dict_setitem models (key_of (extract_filename kcpps_file))
               (entry_of (extract_filename kcpps_file)).

(** Whether a directory entry carries a name that [*.kcpps] matches. *)
Definition matching (w : world) (e : dirent) : bool :=
  fnmatch_star (is_windows w) (dirent_name e) ".kcpps".

(** The paths [glob] yields for a listing. *)
Definition glob_result (w : world) (dir : string) (entries : list dirent) : list Path :=
  map (fun e => Path_div [dir] (dirent_name e)) (List.filter (matching w) entries).

Definition no_files_warning (dir : string) : string :=
  "Warning: No .kcpps files found in '" ++ dir ++ "'.".

(** Whether writing [output_file] raises in this world. *)
Definition write_fails (w : world) (output_file : string) : bool :=
  match fs w !! output_file with
  | Some (Directory _) => true
  | Some (RegularFile _) | None =>
      match write_error w with
      | Some _ => true
      | None => false
      end
  end.

Definition error_writing (output_file : string) (e : exn) : string :=
  "Error writing " ++ output_file ++ ": " ++ exn_str e.

Definition unpack_argv : list string := ["koboldcpp"; "--unpack"; "kcpp-extracted"].

(** What [main] does once a child was launched. *)
Definition supervise (process : Popen) : M unit :=
  print "llama-swap launched successfully!" ;;;
  try_except
    (Popen_wait process)
    is_KeyboardInterrupt
    (fun _ =>
       print (Str.nl ++ "Shutting down llama-swap...") ;;;
       Popen_terminate process ;;;
       Popen_wait process).

(** What [main] does after a successful generation. *)
Definition supervision : M unit :=
  llama_swap_process <- launch_llama_swap ;;
  match llama_swap_process with
  | Some process => supervise process
  | None => ret tt
  end.

(** What [main] does from discovery on. *)
Definition pipeline : M unit :=
  kcpps_files <- find_kcpps_files "configs" ;;
  if is_empty kcpps_files then
    print "No .kcpps files found. Exiting."
  else
    success <- generate_config_yaml kcpps_files "config.yaml" ;;
    if success then
      print "Config generation completed successfully!" ;;;
      supervision
    else
      print "Config generation failed." ;;;
      sys_exit (ExitInt 1).

(** Whether the one-time extraction step is needed and raises. *)
Definition extraction_raises (w : world) : bool :=
  match fs w !! "kcpp-extracted", unpack_outcome w with
  | None, RunRaises _ => true
  | _, _ => false
  end.

(** The world after the extraction step, when it does not raise. *)
Definition after_extraction (w : world) : world :=
  match fs w !! "kcpp-extracted" with
  | Some _ => w
  | None =>
      match unpack_outcome w with
      | RunCompletes true =>
          set_fs (<["kcpp-extracted" := Directory []]> (fs w)) (log (EvRun unpack_argv) w)
      | RunCompletes false | RunRaises _ => log (EvRun unpack_argv) w
      end
  end.

Definition started (w : world) : world := log (EvPrint "Kobold Swap") w.

Definition no_input_world (w : world) : world :=
  log (EvPrint "No .kcpps files found. Exiting.")
      (log (EvPrint (no_files_warning "configs")) w).

(** The world right after the output file was written. *)
Definition written_world (kcpps_files : list Path) (w : world) : world :=
  log (EvPrint "Successfully generated config.yaml")
      (set_fs (<["config.yaml" := RegularFile (yaml_dump w (build_config kcpps_files))]> (fs w))
              (log (EvOpenW "config.yaml") w)).

Definition generated_world (kcpps_files : list Path) (w : world) : world :=
  log (EvPrint "Config generation completed successfully!") (written_world kcpps_files w).

Definition not_found_warning (executable : string) : string :=
  "Warning: " ++ executable ++ " not found. Skipping llama-swap launch.".

Definition launching_world (w : world) : world :=
  log (EvPopen [llama_swap_executable w])
      (log (EvPrint ("Launching " ++ llama_swap_executable w ++ "...")) w).

(** A world in which [main] gets as far as writing the output file: the
    configs folder lists at least one matching entry, the extraction step
    does not raise and the write does not fail. *)
Definition generates (w : world) (entries : list dirent) : Prop :=
  fs w !! "configs" = Some (Directory entries) /\
  glob_result w "configs" entries <> [] /\
  extraction_raises w = false /\
  write_fails w "config.yaml" = false.

(** The world in which [main] then turns to the proxy. *)
Definition generated (w : world) (entries : list dirent) : world :=
  generated_world (glob_result w "configs" entries) (after_extraction (started w)).

(** The world in which the child has just been spawned. *)
Definition launched (w : world) (entries : list dirent) : world :=
  set_child ChildRunning (launching_world (generated w entries)).

Definition shutdown_message : string := Str.nl ++ "Shutting down llama-swap...".

(** The events of a graceful shutdown, from the interrupted wait on. *)
Definition shutdown_events : list event :=
  [EvWait; EvPrint shutdown_message; EvTerminate; EvWait].

(** The world an outcome leaves behind. *)
Definition world_of {A : Type} (o : outcome A) : world :=
  match o with
  | Ret _ w => w
  | Raise _ w => w
  | Hang w => w
  end.

Definition setup_events : list event :=
  [EvPrint "Kobold Swap"; EvMakedirs "configs"; EvPrint configs_created_message;
   EvStderr EmptyString].

(** Whether the wait of the interrupt handler is itself interrupted: the
    child did not exit meanwhile and the next thing to happen is another
    interrupt. *)
Definition second_wait_interrupted (exited_meanwhile : bool) (rest : list wait_event)
  : bool :=
  negb exited_meanwhile &&
  match rest with
  | WInterrupt _ :: _ => true
  | WChildExits :: _ | [] => false
  end.

(** The claim C9 as the spec words it: whatever follows the interrupt, the
    shutdown is reported and requested and the program does not end before
    the child has exited. *)
Definition awaits_child_after_any_interrupt : Prop :=
  forall (w : world) (entries : list dirent) (o : fs_object) (b : bool)
         (rest : list wait_event) (t : termination) (w' : world),
    generates w entries ->
    fs w !! llama_swap_executable w = Some o ->
    popen_error w = None ->
    wait_events w = WInterrupt b :: rest ->
    run_script w = (t, w') ->
    (exists pre post, trace w' = pre ++ shutdown_events ++ post) /\
    (t <> NeverExits -> child w' = ChildExited).

(** The claim C6 as the spec words it: no regular file with a matching name
    means a reported, successful run that leaves the output file alone. *)
Definition no_matching_file_ends_quietly : Prop :=
  forall (w : world) (entries : list dirent),
    fs w !! "configs" = Some (Directory entries) ->
    List.filter (fun e => dirent_is_file e && matching w e) entries = [] ->
    exists w',
      run_script w = (ExitStatus 0, w') /\
      printed "No .kcpps files found. Exiting." w' /\
      fs w' !! "config.yaml" = fs w !! "config.yaml".

(** A listing with the contents of its subdirectories removed. *)
Definition forget_children (e : dirent) : dirent :=
  match e with
  | DFile n => DFile n
  | DDir n _ => DDir n []
  end.

(** The claim C4 as the spec words it: as many results as there are regular
    files with a matching name. *)
Definition discovery_counts_matching_files : Prop :=
  forall (w : world) (dir : string) (entries : list dirent),
    fs w !! dir = Some (Directory entries) ->
    exists l w',
      find_kcpps_files dir w = Ret l w' /\
      length l = length (List.filter (fun e => dirent_is_file e && matching w e) entries).

(** The claim C2 as the spec words it: as many entries as discovered
    files. *)
Definition one_entry_per_discovered_file : Prop :=
  forall (w w' : world) (l : list Path),
    find_kcpps_files "configs" w = Ret l w' ->
    length (build_models l) = length l.

Definition example_entry (x : string) : string * entry_dict :=
  (("koboldcpp/" ++ x)%string,
   [("cmd",
     ("kcpp-extracted/koboldcpp-launcher --config configs/" ++ x ++
      ".kcpps --port ${PORT} --hordemodelname " ++ x)%string);
    ("checkEndpoint", "/ping")]).

Definition file_a : dirent := DFile "a.kcpps".
Definition file_b : dirent := DFile "b.kcpps".

(** The claim C3 as the spec words it: the two keys come out as [a] then
    [b] whenever the folder holds exactly the two files. *)
Definition keys_follow_file_names : Prop :=
  forall (w : world) (entries : list dirent),
    fs w !! "configs" = Some (Directory entries) ->
    Permutation entries [file_a; file_b] ->
    exists l w',
      find_kcpps_files "configs" w = Ret l w' /\
      dict_keys (build_models l) = ["koboldcpp/a"; "koboldcpp/b"].

(** A Linux installation in [/opt/kobold-swap] with the proxy in place, the
    given listing of the configs folder and the given course of the waits. *)
Definition example_world (entries : list dirent) (events : list wait_event) : world :=
  initial_world "Linux" "/opt/kobold-swap" example_dump
    (<["configs" := Directory entries]>
       (<["/opt/kobold-swap/llama-swap" := RegularFile "ELF"]> ∅))
    None (RunCompletes true) None None events.

(** The same installation without the proxy. *)
Definition example_world_no_proxy (entries : list dirent) : world :=
  initial_world "Linux" "/opt/kobold-swap" example_dump
    (<["configs" := Directory entries]> ∅)
    None (RunCompletes true) None None [].

(** A fresh working directory: no configs folder yet. *)
Definition fresh_world : world :=
  initial_world "Linux" "/opt/kobold-swap" example_dump ∅
    None (RunCompletes true) None None [].

(** A configs folder with notes and an old subdirectory but no matching
    entry, next to an output file of an earlier run. *)
Definition no_input_example : world :=
  initial_world "Linux" "/opt/kobold-swap" example_dump
    (<["configs" := Directory [DFile "notes.txt"; DDir "old" [DFile "x.kcpps"]]]>
       (<["config.yaml" := RegularFile "models: {}"]> ∅))
    None (RunCompletes true) None None [].

(** A configs folder that holds nothing but a subdirectory whose own name
    matches. *)
Definition only_subdirectory : world :=
  example_world_no_proxy [DDir "sub.kcpps" []].

(** An empty configs folder where the extraction step cannot be started. *)
Definition extraction_fails : world :=
  initial_world "Linux" "/opt/kobold-swap" example_dump
    (<["configs" := Directory []]> ∅)
    None (RunRaises "[Errno 2] No such file or directory: 'koboldcpp'") None None [].

(** A configs folder with a matching file, a file that does not match and a
    subdirectory whose own name matches. *)
Definition mixed_listing : list dirent :=
  [DFile "a.kcpps"; DFile "notes.txt"; DDir "sub.kcpps" [DFile "c.kcpps"]].

(** Two files of one folder with the same identifier: [Path.stem] leaves the
    hidden name [.kcpps] whole and strips the suffix of [.kcpps.kcpps]. *)
Definition hidden_listing : list dirent := [DFile ".kcpps"; DFile ".kcpps.kcpps"].
(** ** The possible runs of the script *)

(** The interpreter's part of [run_script]: what becomes of the way [main]
    ends. *)
Definition conclude (o : outcome unit) : termination * world :=
  match o with
  | Ret _ w' => (ExitStatus 0, w')
  | Raise (SystemExit ExitNone) w' => (ExitStatus 0, w')
  | Raise (SystemExit (ExitInt n)) w' => (ExitStatus n, w')
  | Raise (SystemExit (ExitStr s)) w' => (ExitStatus 1, log (EvStderr s) w')
  | Raise KeyboardInterrupt w' =>
      (KilledByInterrupt, log (EvStderr (traceback KeyboardInterrupt)) w')
  | Raise (PyError msg) w' => (ExitStatus 1, log (EvStderr (traceback (PyError msg))) w')
  | Hang w' => (NeverExits, w')
  end.

(** What the extraction step adds to the trace when it is reached. *)
Definition extraction_events (w : world) : list event :=
  match fs w !! "kcpp-extracted" with
  | Some _ => []
  | None => [EvRun unpack_argv]
  end.

(** The files after an extraction step that does not raise. *)
Definition extraction_fs (w : world) : gmap string fs_object :=
  match fs w !! "kcpp-extracted" with
  | Some _ => fs w
  | None =>
      match unpack_outcome w with
      | RunCompletes true => <["kcpp-extracted" := Directory []]> (fs w)
      | RunCompletes false | RunRaises _ => fs w
      end
  end.

(** The events of a run up to discovery. *)
Definition opening_events (w : world) : list event :=
  EvPrint "Kobold Swap" :: extraction_events w.

(** The events of a run up to and including a successful generation. *)
Definition generation_events (w : world) : list event :=
  opening_events w ++
  [EvOpenW "config.yaml"; EvPrint "Successfully generated config.yaml";
   EvPrint "Config generation completed successfully!"].

(** The events of the launch of the proxy. *)
Definition launch_events (w : world) : list event :=
  [EvPrint ("Launching " ++ llama_swap_executable w ++ "...");
   EvPopen [llama_swap_executable w]].

(** The files after a successful generation. *)
Definition generated_fs (w : world) (entries : list dirent) : gmap string fs_object :=
  <["config.yaml" :=
      RegularFile (yaml_dump w (build_config (glob_result w "configs" entries)))]>
    (extraction_fs w).

(** The message of the exception with which writing [output_file] over the
    files [f] fails, and the files it leaves. *)
Definition failed_write (w : world) (f : gmap string fs_object) (output_file : string)
  : option (string * gmap string fs_object) :=
  match f !! output_file with
  | Some (Directory _) =>
      Some (("[Errno 21] Is a directory: '" ++ output_file ++ "'")%string, f)
  | Some (RegularFile _) | None =>
      match write_error w with
      | Some (OpenFails msg) => Some (msg, f)
      | Some (DumpFails msg written) => Some (msg, <[output_file := RegularFile written]> f)
      | None => None
      end
  end.

(** How the supervision of a running child ends, by what ends its waits:
    the way the process ends, the state of the child then, and the events
    from the first wait on. *)
Definition supervise_summary (events : list wait_event)
  : termination * child_state * list event :=
  match events with
  | [] => (NeverExits, ChildRunning, [EvWait])
  | WChildExits :: _ => (ExitStatus 0, ChildExited, [EvWait])
  | WInterrupt true :: _ => (ExitStatus 0, ChildExited, shutdown_events)
  | WInterrupt false :: [] => (NeverExits, ChildRunning, shutdown_events)
  | WInterrupt false :: WChildExits :: _ => (ExitStatus 0, ChildExited, shutdown_events)
  | WInterrupt false :: WInterrupt exited :: _ =>
      (KilledByInterrupt, if exited then ChildExited else ChildRunning,
       shutdown_events ++ [EvStderr (traceback KeyboardInterrupt)])
  end.

(** What can be observed of a run: how the process ends, the events it adds
    to the trace, the child and the files it leaves. *)
Record summary : Type := mkSummary {
  s_status : termination;
  s_events : list event;
  s_child : child_state;
  s_fs : gmap string fs_object
}.

(** The kinds of run the script has, each with what it leaves behind. *)
Inductive runs (w : world) : summary -> Prop :=
| RunSetup :
    fs w !! "configs" = None ->
    makedirs_error w = None ->
    runs w (mkSummary (ExitStatus 1) setup_events (child w)
                      (<["configs" := Directory []]> (fs w)))
| RunSetupFails (msg : string) :
    fs w !! "configs" = None ->
    makedirs_error w = Some msg ->
    runs w (mkSummary (ExitStatus 1)
                      [EvPrint "Kobold Swap"; EvMakedirs "configs";
                       EvStderr (traceback (PyError msg))]
                      (child w) (fs w))
| RunExtractionFails (o : fs_object) (msg : string) :
    fs w !! "configs" = Some o ->
    fs w !! "kcpp-extracted" = None ->
    unpack_outcome w = RunRaises msg ->
    runs w (mkSummary (ExitStatus 1)
                      [EvPrint "Kobold Swap"; EvRun unpack_argv;
                       EvStderr (traceback (PyError msg))]
                      (child w) (fs w))
| RunNotADirectory (content : string) :
    fs w !! "configs" = Some (RegularFile content) ->
    extraction_raises w = false ->
    runs w (mkSummary (ExitStatus 0)
                      (opening_events w ++
                       [EvPrint (no_files_warning "configs");
                        EvPrint "No .kcpps files found. Exiting."])
                      (child w) (extraction_fs w))
| RunNoInput (entries : list dirent) :
    fs w !! "configs" = Some (Directory entries) ->
    glob_result w "configs" entries = [] ->
    extraction_raises w = false ->
    runs w (mkSummary (ExitStatus 0)
                      (opening_events w ++
                       [EvPrint (no_files_warning "configs");
                        EvPrint "No .kcpps files found. Exiting."])
                      (child w) (extraction_fs w))
| RunWriteFails (entries : list dirent) (msg : string) (f : gmap string fs_object) :
    fs w !! "configs" = Some (Directory entries) ->
    glob_result w "configs" entries <> [] ->
    extraction_raises w = false ->
    failed_write w (extraction_fs w) "config.yaml" = Some (msg, f) ->
    runs w (mkSummary (ExitStatus 1)
                      (opening_events w ++
                       [EvOpenW "config.yaml";
                        EvPrint ("Error writing config.yaml: " ++ msg);
                        EvPrint "Config generation failed."])
                      (child w) f)
| RunNoProxy (entries : list dirent) :
    generates w entries ->
    fs w !! llama_swap_executable w = None ->
    runs w (mkSummary (ExitStatus 0)
                      (generation_events w ++
                       [EvPrint (not_found_warning (llama_swap_executable w))])
                      (child w) (generated_fs w entries))
| RunSpawnFails (entries : list dirent) (o : fs_object) (msg : string) :
    generates w entries ->
    fs w !! llama_swap_executable w = Some o ->
    popen_error w = Some msg ->
    runs w (mkSummary (ExitStatus 0)
                      (generation_events w ++ launch_events w ++
                       [EvPrint ("Error launching llama-swap: " ++ msg)])
                      (child w) (generated_fs w entries))
| RunSupervised (entries : list dirent) (o : fs_object) :
    generates w entries ->
    fs w !! llama_swap_executable w = Some o ->
    popen_error w = None ->
    runs w (mkSummary (fst (fst (supervise_summary (wait_events w))))
                      (generation_events w ++ launch_events w ++
                       EvPrint "llama-swap launched successfully!" ::
                       snd (supervise_summary (wait_events w)))
                      (snd (fst (supervise_summary (wait_events w))))
                      (generated_fs w entries)).

(** What a run of the script leaves to observe, from the world it started
    in and the world it ended in. *)
Definition observed (w : world) (r : termination * world) : summary :=
  mkSummary (fst r) (skipn (length (trace w)) (trace (snd r))) (child (snd r)) (fs (snd r)).

(** The events a run of the script adds to the trace. *)
Definition events_of_run (w : world) : list event :=
  s_events (observed w (run_script w)).

(** The world a run of the script ends in. *)
Definition final_world (w : world) : world := snd (run_script w).

(** The status or other end of a run of the script. *)
Definition final_status (w : world) : termination := fst (run_script w).

(** The installation with the proxy in place and one configuration, where
    the output file cannot be opened for writing. *)
Definition read_only_world : world :=
  initial_world "Linux" "/opt/kobold-swap" example_dump
    (<["configs" := Directory [file_a]]>
       (<["/opt/kobold-swap/llama-swap" := RegularFile "ELF"]> ∅))
    None (RunCompletes true)
    (Some (OpenFails "[Errno 13] Permission denied: 'config.yaml'")) None [].

(** The installation where the proxy is in place but cannot be executed. *)
Definition not_executable_world : world :=
  initial_world "Linux" "/opt/kobold-swap" example_dump
    (<["configs" := Directory [file_a]]>
       (<["/opt/kobold-swap/llama-swap" := RegularFile "text"]> ∅))
    None (RunCompletes true) None
    (Some "[Errno 13] Permission denied: '/opt/kobold-swap/llama-swap'") [].

(** A working directory where [configs] is a regular file. *)
Definition configs_is_a_file : world :=
  initial_world "Linux" "/opt/kobold-swap" example_dump
    (<["configs" := RegularFile "a.kcpps"]>
       (<["config.yaml" := RegularFile "models: {}"]> ∅))
    None (RunCompletes false) None None [].

(** A configs folder with one configuration where the extraction step
    cannot be started. *)
Definition no_koboldcpp_world : world :=
  initial_world "Linux" "/opt/kobold-swap" example_dump
    (<["configs" := Directory [file_a]]> ∅)
    None (RunRaises "[Errno 2] No such file or directory: 'koboldcpp'") None None [].

(** ** The functions called on their own

    Inside [main] the synthesis receives the [Path] objects discovery
    returned, discovery is asked for the plain name [configs] right after
    [os.path.exists] answered for it, and both phases are taken to run
    undisturbed.  A caller of the single functions is not held to any of
    this.  The definitions below embed the two functions once more with
    what such a caller can bring about made explicit: list elements that are
    no [Path] objects, a [stat] that fails, a standard output that refuses a
    line, and an interrupt while the file is written. *)

(** An element of the list handed to [generate_config_yaml]: a [Path]
    object, or an object without an attribute [stem] such as a [str] or
    [None]. *)
Inductive py_object : Type :=
| PyPath (p : Path)
| PyStr (s : string)
| PyNone.

(** What the surroundings can do to a call. *)
Record hazards : Type := mkHazards {
  stat_error : option string;         (* os.stat of the directory raises an OSError that pathlib
                                         re-raises (any errno but ENOENT, ENOTDIR, EBADF, ELOOP:
                                         name too long, permission denied, ...); its str() *)
  stdout_error : option string;       (* print raises (standard output is closed or cannot
                                         encode the line); its str() *)
  interrupt_in_dump : option string   (* the user interrupts while yaml.dump writes, after this
                                         much has reached the file *)
}.

(** Nothing untoward happens. *)
Definition calm : hazards := mkHazards None None None.

(** [print(line)] *)
Definition print_in (hz : hazards) (line : string) : M unit :=
  fun w =>
    match stdout_error hz with
    | Some msg => Raise (PyError msg) w
    | None => print line w
    end.




(** [extract_filename(file_path)], that is [file_path.stem]: an
    [AttributeError] for an object without the attribute. *)
Definition extract_filename_any (file_path : py_object) : M string :=
  match file_path with
  | PyPath p => ret (Path_stem p)
  | PyStr _ => raise (PyError "'str' object has no attribute 'stem'")
  | PyNone => raise (PyError "'NoneType' object has no attribute 'stem'")
  end.

(** The loop of [generate_config_yaml] that fills [models]; it runs before
    the [try]. *)
Fixpoint build_models_any (models : models_dict) (kcpps_files : list py_object)
  : M models_dict :=
  match kcpps_files with
  | [] => ret models
  | kcpps_file :: rest =>
      filename <- extract_filename_any kcpps_file ;;
      let entry := generate_config_entry filename in
      build_models_any (dict_update models entry) rest
  end.

(** [with open(output_file, 'w', encoding='utf-8') as f: yaml.dump(config, f, ...)]
    where an interrupt may arrive once the file is open. *)
Definition open_and_dump_in (hz : hazards) (output_file : string) (config : config_dict)
  : M unit :=
  fun w =>
    let w1 := log (EvOpenW output_file) w in
    match fs w !! output_file with
    | Some (Directory _) =>
        Raise (PyError ("[Errno 21] Is a directory: '" ++ output_file ++ "'")) w1
    | Some (RegularFile _) | None =>
        match write_error w with
        | Some (OpenFails msg) => Raise (PyError msg) w1
        | Some (DumpFails _ _) | None =>
            match interrupt_in_dump hz with
            | Some written =>
                Raise KeyboardInterrupt
                      (set_fs (<[output_file := RegularFile written]> (fs w)) w1)
            | None => open_and_dump output_file config w
            end
        end
    end.

(** [generate_config_yaml(kcpps_files, output_file)] *)
Definition generate_config_yaml_in (hz : hazards) (kcpps_files : list py_object)
           (output_file : string) : M bool :=
  if is_empty kcpps_files then
    print_in hz "No .kcpps files to process." ;;;
    ret false
  else
    models <- build_models_any [] kcpps_files ;;
    let config := [("models", models)] in
    try_except
      (open_and_dump_in hz output_file config ;;;
       print_in hz ("Successfully generated " ++ output_file) ;;;
       ret true)
      is_Exception
      (fun e =>
         print_in hz ("Error writing " ++ output_file ++ ": " ++ exn_str e) ;;;
         ret false).

(** The claim C10 as the spec words it: for every input list the function
    returns a boolean, and an exception raised during the write is turned
    into [False]. *)
Definition returns_for_every_list : Prop :=
  forall (kcpps_files : list py_object) (output_file : string) (w : world),
    exists b w', generate_config_yaml_in calm kcpps_files output_file w = Ret b w'.

Definition every_write_exception_is_caught : Prop :=
  forall (hz : hazards) (kcpps_files : list Path) (output_file : string)
         (w w1 : world) (e : exn),
    stdout_error hz = None ->
    kcpps_files <> [] ->
    open_and_dump_in hz output_file (build_config kcpps_files) w = Raise e w1 ->
    exists w', generate_config_yaml_in hz (map PyPath kcpps_files) output_file w = Ret false w'.

(** A caller that passes file names as strings. *)
Definition names_as_strings : list py_object := [PyStr "configs/a.kcpps"].

(** An interrupt after the first line of the dump. *)
Definition interrupted_dump : hazards :=
  mkHazards None None (Some "models:").

(** A standard output that was closed. *)
Definition closed_stdout : hazards :=
  mkHazards None (Some "I/O operation on closed file") None.


(** A working directory where the extraction was done earlier and the proxy
    is not installed. *)
Definition extracted_no_proxy : world :=
  initial_world "Linux" "/opt/kobold-swap" example_dump
    (<["configs" := Directory [file_a]]>
       (<["kcpp-extracted" := Directory [DFile "koboldcpp-launcher"]]> ∅))
    None (RunCompletes true) None None [].

(** ** Facts about strings and dictionaries *)

Section StringFacts.

Lemma append_inj_l (p a b : string) : (p ++ a)%string = (p ++ b)%string -> a = b.
Proof.
  induction p as [|c p IH]; simpl; intros H; [exact H|].
  injection H as H. auto.
Qed.

Lemma key_of_inj (a b : string) : key_of a = key_of b -> a = b.
Proof. unfold key_of. apply append_inj_l. Qed.

Lemma eqb_key_of (a b : string) :
  String.eqb (key_of a) (key_of b) = String.eqb a b.
Proof.
  destruct (String.eqb_spec a b) as [->|Hne].
  - apply String.eqb_refl.
  - apply String.eqb_neq. intros H. apply Hne, key_of_inj, H.
Qed.

Lemma contains_app_r (needle s t : string) :
  Str.contains t needle = true -> Str.contains (s ++ t) needle = true.
Proof.
  intros H. induction s as [|c s IH]; simpl; [exact H|].
  rewrite IH. match goal with |- (if ?b then _ else _) = _ => destruct b end; reflexivity.
Qed.

Lemma startswith_app (needle t : string) :
  Str.startswith (needle ++ t) needle = true.
Proof.
  induction needle as [|c n IH]; simpl; [reflexivity|].
  rewrite Ascii.eqb_refl. exact IH.
Qed.

Lemma contains_app_l (needle t : string) :
  Str.contains (needle ++ t) needle = true.
Proof.
  pose proof (startswith_app needle t) as H.
  destruct (needle ++ t)%string; simpl; rewrite H; reflexivity.
Qed.

End StringFacts.

Section DictFacts.

Context {V : Type}.
Implicit Types (d : dict V) (k : string) (v : V).

Lemma dict_update_single d k v : dict_update d [(k, v)] = dict_setitem d k v.
Proof. reflexivity. Qed.

Lemma dict_setitem_fresh d k v :
  ~ In k (dict_keys d) -> dict_setitem d k v = d ++ [(k, v)].
Proof.
  induction d as [|[k' v'] d IH]; simpl; intros Hk; [reflexivity|].
  destruct (String.eqb_spec k' k) as [->|Hne].
  - exfalso. apply Hk. left. reflexivity.
  - rewrite IH; [reflexivity|]. intros Hin. apply Hk. right. exact Hin.
Qed.

Lemma dict_setitem_keys d k v :
  In k (dict_keys d) -> dict_keys (dict_setitem d k v) = dict_keys d.
Proof.
  induction d as [|[k' v'] d IH]; simpl; intros Hk; [contradiction|].
  destruct (String.eqb_spec k' k) as [->|Hne]; [reflexivity|].
  simpl. rewrite IH; [reflexivity|]. destruct Hk as [Hk|Hk]; congruence.
Qed.

Lemma dict_setitem_length_le d k v :
  (length (dict_setitem d k v) <= S (length d))%nat.
Proof.
  induction d as [|[k' v'] d IH]; simpl; [lia|].
  destruct (String.eqb k' k); simpl; lia.
Qed.

Lemma dict_setitem_In d k v (x : string * V) :
  In x (dict_setitem d k v) -> In x d \/ exists k0, x = (k0, v) /\ (k0 = k).
Proof.
  induction d as [|[k' v'] d IH]; simpl.
  - intros [<-|[]]. right. eauto.
  - destruct (String.eqb_spec k' k) as [->|Hne]; simpl.
    + intros [<-|H]; [right; eauto|left; right; exact H].
    + intros [<-|H]; [left; left; reflexivity|].
      destruct (IH H) as [H'|H']; [left; right; exact H'|right; exact H'].
Qed.

End DictFacts.

(** ** Facts about the synthesized mapping *)

Lemma build_models_fold (kcpps_files : list Path) :
  build_models kcpps_files = fold_left add_file kcpps_files [].
Proof. reflexivity. Qed.

Lemma fold_add_file_distinct (kcpps_files : list Path) (acc : models_dict) :
  NoDup (map extract_filename kcpps_files) ->
  (forall p, In p kcpps_files -> ~ In (key_of (extract_filename p)) (dict_keys acc)) ->
  fold_left add_file kcpps_files acc =
  acc ++ map (fun p => mk_item (extract_filename p)) kcpps_files.
Proof.
  revert acc. induction kcpps_files as [|p l IH]; simpl; intros acc Hnd Hfresh.
  - symmetry. apply app_nil_r.
  - apply NoDup_cons in Hnd as [Hp Hnd]. rewrite list_elem_of_In in Hp.
    unfold add_file at 2. rewrite dict_setitem_fresh by (apply Hfresh; left; reflexivity).
    rewrite IH; [rewrite <- app_assoc; reflexivity|exact Hnd|].
    intros q Hq. unfold dict_keys. rewrite map_app, in_app_iff. simpl.
    intros [Hin|[Heq|[]]].
    + apply (Hfresh q); [right; exact Hq|exact Hin].
    + apply key_of_inj in Heq. apply Hp. rewrite Heq. apply in_map. exact Hq.
Qed.

Lemma build_models_distinct (kcpps_files : list Path) :
  NoDup (map extract_filename kcpps_files) ->
  build_models kcpps_files = map (fun p => mk_item (extract_filename p)) kcpps_files.
Proof.
  intros Hnd. rewrite build_models_fold, fold_add_file_distinct; auto.
Qed.

Lemma fold_add_file_items (kcpps_files : list Path) (acc : models_dict) (x : string * entry_dict) :
  In x (fold_left add_file kcpps_files acc) ->
  In x acc \/ exists p, In p kcpps_files /\ x = mk_item (extract_filename p).
Proof.
  revert acc. induction kcpps_files as [|p l IH]; simpl; intros acc Hx; [left; exact Hx|].
  destruct (IH _ Hx) as [Hacc|[q [Hq ->]]].
  - apply dict_setitem_In in Hacc as [Hacc|[k0 [-> ->]]]; [left; exact Hacc|].
    right. exists p. split; [left; reflexivity|reflexivity].
  - right. exists q. split; [right; exact Hq|reflexivity].
Qed.

Lemma fold_add_file_length (kcpps_files : list Path) (acc : models_dict) :
  (length (fold_left add_file kcpps_files acc) <= length acc + length kcpps_files)%nat.
Proof.
  revert acc. induction kcpps_files as [|p l IH]; simpl; intros acc; [lia|].
  specialize (IH (add_file acc p)).
  pose proof (dict_setitem_length_le acc (key_of (extract_filename p))
                (entry_of (extract_filename p))) as Hle.
  unfold add_file in *. lia.
Qed.

Lemma cmd_of_contains_port (filename : string) :
  Str.contains (cmd_of filename) "${PORT}" = true.
Proof.
  unfold cmd_of, cmd_middle.
  apply contains_app_r, contains_app_r.
  apply (contains_app_r "${PORT}" ".kcpps --port " ("${PORT} --hordemodelname " ++ filename)).
  apply (contains_app_l "${PORT}" (" --hordemodelname " ++ filename)).
Qed.

(** ** Running the monad *)

Lemma bind_Ret {A B : Type} (m : M A) (k : A -> M B) (w w' : world) (a : A) :
  m w = Ret a w' -> bind m k w = k a w'.
Proof. unfold bind. intros ->. reflexivity. Qed.

Lemma bind_Raise {A B : Type} (m : M A) (k : A -> M B) (w w' : world) (e : exn) :
  m w = Raise e w' -> bind m k w = Raise e w'.
Proof. unfold bind. intros ->. reflexivity. Qed.

Lemma bind_Hang {A B : Type} (m : M A) (k : A -> M B) (w w' : world) :
  m w = Hang w' -> bind m k w = Hang w'.
Proof. unfold bind. intros ->. reflexivity. Qed.

Lemma exists_present (w : world) (path : string) (o : fs_object) :
  fs w !! path = Some o -> os_path_exists path w = Ret true w.
Proof.
  intros H. unfold os_path_exists. rewrite bool_decide_eq_true_2; [reflexivity|].
  rewrite H. eauto.
Qed.

Lemma exists_absent (w : world) (path : string) :
  fs w !! path = None -> os_path_exists path w = Ret false w.
Proof.
  intros H. unfold os_path_exists. rewrite bool_decide_eq_false_2; [reflexivity|].
  rewrite H. intros [x Hx]. discriminate.
Qed.

(** ** Discovery *)

Lemma glob_directory (w : world) (dir : string) (entries : list dirent) :
  fs w !! dir = Some (Directory entries) ->
  Path_glob_star dir ".kcpps" w = Ret (glob_result w dir entries) w.
Proof. intros H. unfold Path_glob_star. rewrite H. reflexivity. Qed.

Lemma glob_regular (w : world) (dir content : string) :
  fs w !! dir = Some (RegularFile content) ->
  Path_glob_star dir ".kcpps" w = Ret [] w.
Proof. intros H. unfold Path_glob_star. rewrite H. reflexivity. Qed.

Lemma find_kcpps_files_directory (w : world) (dir : string) (entries : list dirent) :
  fs w !! dir = Some (Directory entries) ->
  find_kcpps_files dir w =
  if is_empty (glob_result w dir entries)
  then Ret [] (log (EvPrint (no_files_warning dir)) w)
  else Ret (glob_result w dir entries) w.
Proof.
  intros H. unfold find_kcpps_files.
  rewrite (bind_Ret _ _ _ _ _ (exists_present _ _ _ H)). cbn [negb].
  rewrite (bind_Ret _ _ _ _ _ (glob_directory _ _ _ H)).
  destruct (glob_result w dir entries); reflexivity.
Qed.

Lemma find_kcpps_files_absent (w : world) (dir : string) :
  fs w !! dir = None ->
  find_kcpps_files dir w =
  Ret [] (log (EvPrint ("Error: Configs directory '" ++ dir ++ "' not found.")) w).
Proof.
  intros H. unfold find_kcpps_files.
  rewrite (bind_Ret _ _ _ _ _ (exists_absent _ _ H)). reflexivity.
Qed.

Lemma find_kcpps_files_regular (w : world) (dir content : string) :
  fs w !! dir = Some (RegularFile content) ->
  find_kcpps_files dir w = Ret [] (log (EvPrint (no_files_warning dir)) w).
Proof.
  intros H. unfold find_kcpps_files.
  rewrite (bind_Ret _ _ _ _ _ (exists_present _ _ _ H)). cbn [negb].
  rewrite (bind_Ret _ _ _ _ _ (glob_regular _ _ _ H)). reflexivity.
Qed.

(** Discovery always returns. *)
Lemma find_kcpps_files_returns (w : world) (dir : string) :
  exists l w', find_kcpps_files dir w = Ret l w' /\ fs w' = fs w.
Proof.
  destruct (fs w !! dir) as [[c|entries]|] eqn:H.
  - rewrite (find_kcpps_files_regular _ _ _ H). eauto.
  - rewrite (find_kcpps_files_directory _ _ _ H).
    destruct (is_empty _); eauto.
  - rewrite (find_kcpps_files_absent _ _ H). eauto.
Qed.

(** ** Config synthesis *)

Lemma generate_config_yaml_empty (output_file : string) (w : world) :
  generate_config_yaml [] output_file w =
  Ret false (log (EvPrint "No .kcpps files to process.") w).
Proof. reflexivity. Qed.

Lemma generate_config_yaml_written (kcpps_files : list Path) (output_file : string)
      (w : world) :
  kcpps_files <> [] ->
  write_fails w output_file = false ->
  generate_config_yaml kcpps_files output_file w =
  Ret true
      (log (EvPrint ("Successfully generated " ++ output_file))
           (set_fs (<[output_file := RegularFile (yaml_dump w (build_config kcpps_files))]> (fs w))
                   (log (EvOpenW output_file) w))).
Proof.
  intros Hne Hw. destruct kcpps_files as [|p l]; [congruence|].
  unfold write_fails in Hw.
  unfold generate_config_yaml, try_except, bind, open_and_dump. cbn [is_empty].
  destruct (fs w !! output_file) as [[c|es]|]; try discriminate;
    destruct (write_error w); try discriminate; reflexivity.
Qed.

Lemma generate_config_yaml_failed (kcpps_files : list Path) (output_file : string)
      (w : world) :
  kcpps_files <> [] ->
  write_fails w output_file = true ->
  exists e w1,
    open_and_dump output_file (build_config kcpps_files) w = Raise e w1 /\
    is_Exception e = true /\
    In (EvOpenW output_file) (trace w1) /\
    generate_config_yaml kcpps_files output_file w =
    Ret false (log (EvPrint (error_writing output_file e)) w1).
Proof.
  intros Hne Hw. destruct kcpps_files as [|p l]; [congruence|].
  unfold write_fails in Hw.
  unfold generate_config_yaml, try_except, bind, open_and_dump. cbn [is_empty].
  destruct (fs w !! output_file) as [[c|es]|]; [| |];
    [destruct (write_error w) as [[msg|msg wr]|]; try discriminate
    | | destruct (write_error w) as [[msg|msg wr]|]; try discriminate];
    eexists _, _; (split; [reflexivity|]); (split; [reflexivity|]);
    (split; [|reflexivity]); cbn [trace log set_fs]; apply in_or_app; right; left; reflexivity.
Qed.

(** The mapping depends on the discovered files through their identifiers
    only. *)
Lemma build_models_identifiers (kcpps_files kcpps_files' : list Path) :
  map extract_filename kcpps_files = map extract_filename kcpps_files' ->
  build_models kcpps_files = build_models kcpps_files'.
Proof.
  intros H.
  assert (Hfold : forall l acc,
             fold_left add_file l acc =
             fold_left (fun m id => dict_setitem m (key_of id) (entry_of id))
                       (map extract_filename l) acc).
  { induction l as [|p l IH]; simpl; intros acc; [reflexivity|]. apply IH. }
  rewrite !build_models_fold, !Hfold, H. reflexivity.
Qed.

(** ** The stages of [main] *)

Ltac sim_world :=
  cbn [platform_system script_dir yaml_dump fs makedirs_error unpack_outcome
       write_error popen_error wait_events child trace
       set_fs set_child set_wait_events log started negb is_empty is_windows].

Lemma main_missing_configs (w : world) :
  fs w !! "configs" = None ->
  makedirs_error w = None ->
  main w =
  Raise (SystemExit (ExitStr EmptyString))
        (log (EvPrint configs_created_message)
             (set_fs (<["configs" := Directory []]> (fs w))
                     (log (EvMakedirs "configs") (started w)))).
Proof.
  intros Hc Hm. unfold main.
  rewrite (bind_Ret _ _ w (started w) tt) by reflexivity.
  rewrite (bind_Ret _ _ _ _ _ (exists_absent (started w) "configs" Hc)). cbn [negb].
  apply bind_Raise.
  unfold bind, os_makedirs. sim_world. rewrite Hm. reflexivity.
Qed.

Lemma main_reaches_pipeline (w : world) (o : fs_object) :
  fs w !! "configs" = Some o ->
  extraction_raises w = false ->
  main w = pipeline (after_extraction (started w)).
Proof.
  intros Hc Hx. unfold main.
  rewrite (bind_Ret _ _ w (started w) tt) by reflexivity.
  rewrite (bind_Ret _ _ _ _ _ (exists_present (started w) "configs" o Hc)). cbn [negb].
  rewrite (bind_Ret _ _ (started w) (started w) tt) by reflexivity.
  unfold extraction_raises in Hx. unfold after_extraction. sim_world.
  destruct (fs w !! "kcpp-extracted") as [x|] eqn:Hk.
  - rewrite (bind_Ret _ _ _ _ _ (exists_present (started w) "kcpp-extracted" x Hk)).
    cbn [negb]. rewrite (bind_Ret _ _ (started w) (started w) tt) by reflexivity.
    reflexivity.
  - rewrite (bind_Ret _ _ _ _ _ (exists_absent (started w) "kcpp-extracted" Hk)).
    cbn [negb].
    destruct (unpack_outcome w) as [msg|[|]] eqn:Hu; [discriminate| |].
    + rewrite (bind_Ret _ _ (started w)
                 (set_fs (<["kcpp-extracted" := Directory []]> (fs w))
                         (log (EvRun unpack_argv) (started w))) tt).
      * reflexivity.
      * unfold subprocess_run. sim_world. rewrite Hu. reflexivity.
    + rewrite (bind_Ret _ _ (started w) (log (EvRun unpack_argv) (started w)) tt).
      * reflexivity.
      * unfold subprocess_run. sim_world. rewrite Hu. reflexivity.
Qed.

Lemma main_extraction_raises (w : world) (o : fs_object) :
  fs w !! "configs" = Some o ->
  extraction_raises w = true ->
  exists msg, main w = Raise (PyError msg) (log (EvRun unpack_argv) (started w)).
Proof.
  intros Hc Hx. unfold main.
  rewrite (bind_Ret _ _ w (started w) tt) by reflexivity.
  rewrite (bind_Ret _ _ _ _ _ (exists_present (started w) "configs" o Hc)). cbn [negb].
  rewrite (bind_Ret _ _ (started w) (started w) tt) by reflexivity.
  unfold extraction_raises in Hx.
  destruct (fs w !! "kcpp-extracted") as [x|] eqn:Hk; [discriminate|].
  rewrite (bind_Ret _ _ _ _ _ (exists_absent (started w) "kcpp-extracted" Hk)).
  cbn [negb].
  destruct (unpack_outcome w) as [msg|b] eqn:Hu; [|discriminate].
  exists msg. apply bind_Raise. unfold subprocess_run. sim_world. rewrite Hu. reflexivity.
Qed.

(** The extraction step touches nothing but its own directory. *)
Lemma after_extraction_lookup (w : world) (path : string) :
  path <> "kcpp-extracted" ->
  fs (after_extraction w) !! path = fs w !! path.
Proof.
  intros Hp. unfold after_extraction.
  destruct (fs w !! "kcpp-extracted"); [reflexivity|].
  destruct (unpack_outcome w) as [msg|[|]]; sim_world; try reflexivity.
  apply lookup_insert_ne. congruence.
Qed.

Lemma after_extraction_env (w : world) :
  platform_system (after_extraction w) = platform_system w /\
  script_dir (after_extraction w) = script_dir w /\
  yaml_dump (after_extraction w) = yaml_dump w /\
  write_error (after_extraction w) = write_error w /\
  popen_error (after_extraction w) = popen_error w /\
  wait_events (after_extraction w) = wait_events w /\
  child (after_extraction w) = child w.
Proof.
  unfold after_extraction.
  destruct (fs w !! "kcpp-extracted"); [tauto|].
  destruct (unpack_outcome w) as [msg|[|]]; sim_world; tauto.
Qed.

Lemma after_extraction_trace (w : world) :
  trace (after_extraction w) = trace w \/
  trace (after_extraction w) = trace w ++ [EvRun unpack_argv].
Proof.
  unfold after_extraction.
  destruct (fs w !! "kcpp-extracted"); [left; reflexivity|].
  destruct (unpack_outcome w) as [msg|[|]]; sim_world; right; reflexivity.
Qed.

(** ** The executable path *)

Lemma endswith_unfold (s suf : string) :
  Str.endswith s suf =
  if String.eqb s suf then true
  else match s with
       | EmptyString => false
       | String _ s' => Str.endswith s' suf
       end.
Proof. destruct s; reflexivity. Qed.

Lemma endswith_app (a b : string) : Str.endswith (a ++ b) b = true.
Proof.
  induction a as [|c a IH].
  - change (EmptyString ++ b)%string with b.
    rewrite endswith_unfold, String.eqb_refl. reflexivity.
  - change (String c a ++ b)%string with (String c (a ++ b)).
    rewrite endswith_unfold. cbv iota.
    rewrite IH. destruct (String.eqb _ _); reflexivity.
Qed.

Lemma append_assoc (a b c : string) : ((a ++ b) ++ c = a ++ (b ++ c))%string.
Proof.
  induction a as [|x a IH]; [reflexivity|].
  change (String x ((a ++ b) ++ c) = String x (a ++ (b ++ c)))%string.
  f_equal. exact IH.
Qed.

Lemma os_path_join_endswith (windows : bool) (dir name : string) :
  Str.endswith (os_path_join windows dir name) name = true.
Proof.
  unfold os_path_join.
  destruct windows; [destruct (_ || _)|destruct (Str.endswith dir "/")];
    rewrite <- ?append_assoc; apply endswith_app.
Qed.

(** The program looks for [llama-swap.exe] on Windows and for [llama-swap]
    anywhere else, in the directory of the script. *)
Lemma llama_swap_executable_name (w : world) :
  llama_swap_executable w =
  os_path_join (is_windows w) (script_dir w)
               (if is_windows w then "llama-swap.exe" else "llama-swap").
Proof.
  unfold llama_swap_executable, is_windows.
  destruct (String.eqb (platform_system w) "Windows"); reflexivity.
Qed.

Lemma llama_swap_executable_other (w : world) :
  llama_swap_executable w <> "config.yaml" /\
  llama_swap_executable w <> "kcpp-extracted".
Proof.
  rewrite llama_swap_executable_name.
  pose proof (os_path_join_endswith (is_windows w) (script_dir w)
                (if is_windows w then "llama-swap.exe" else "llama-swap")) as H.
  split; intros E; rewrite E in H; destruct (is_windows w); discriminate H.
Qed.

(** ** The pipeline from discovery on *)

Lemma pipeline_no_input (w : world) (entries : list dirent) :
  fs w !! "configs" = Some (Directory entries) ->
  List.filter (matching w) entries = [] ->
  pipeline w = Ret tt (no_input_world w).
Proof.
  intros Hc Hf. unfold pipeline.
  rewrite (bind_Ret _ _ w (log (EvPrint (no_files_warning "configs")) w) []).
  - reflexivity.
  - rewrite (find_kcpps_files_directory _ _ _ Hc). unfold glob_result.
    rewrite Hf. reflexivity.
Qed.

Lemma pipeline_generated (w : world) (entries : list dirent) :
  fs w !! "configs" = Some (Directory entries) ->
  glob_result w "configs" entries <> [] ->
  write_fails w "config.yaml" = false ->
  pipeline w = supervision (generated_world (glob_result w "configs" entries) w).
Proof.
  intros Hc Hg Hw. unfold pipeline.
  rewrite (bind_Ret _ _ w w (glob_result w "configs" entries)).
  2:{ rewrite (find_kcpps_files_directory _ _ _ Hc).
      destruct (glob_result w "configs" entries); [congruence|reflexivity]. }
  destruct (glob_result w "configs" entries) as [|p l] eqn:Hl; [congruence|].
  cbn [is_empty].
  rewrite (bind_Ret _ _ _ _ _ (generate_config_yaml_written (p :: l) "config.yaml" w Hg Hw)).
  reflexivity.
Qed.

Lemma pipeline_write_failure (w : world) (entries : list dirent) :
  fs w !! "configs" = Some (Directory entries) ->
  glob_result w "configs" entries <> [] ->
  write_fails w "config.yaml" = true ->
  exists e w1,
    open_and_dump "config.yaml" (build_config (glob_result w "configs" entries)) w = Raise e w1 /\
    pipeline w =
    Raise (SystemExit (ExitInt 1))
          (log (EvPrint "Config generation failed.")
               (log (EvPrint (error_writing "config.yaml" e)) w1)).
Proof.
  intros Hc Hg Hw.
  destruct (generate_config_yaml_failed _ "config.yaml" w Hg Hw) as (e & w1 & Ho & _ & _ & Hgen).
  exists e, w1. split; [exact Ho|]. unfold pipeline.
  rewrite (bind_Ret _ _ w w (glob_result w "configs" entries)).
  2:{ rewrite (find_kcpps_files_directory _ _ _ Hc).
      destruct (glob_result w "configs" entries); [congruence|reflexivity]. }
  destruct (glob_result w "configs" entries) as [|p l] eqn:Hl; [congruence|].
  cbn [is_empty]. rewrite (bind_Ret _ _ _ _ _ Hgen). reflexivity.
Qed.

(** ** Launching and supervising the proxy *)

Lemma launch_absent (w : world) :
  fs w !! llama_swap_executable w = None ->
  launch_llama_swap w =
  Ret None (log (EvPrint (not_found_warning (llama_swap_executable w))) w).
Proof.
  intros H. unfold launch_llama_swap, try_except.
  rewrite (bind_Ret _ _ _ _ _ (exists_absent w _ H)). reflexivity.
Qed.

Lemma launch_spawned (w : world) (o : fs_object) :
  fs w !! llama_swap_executable w = Some o ->
  popen_error w = None ->
  launch_llama_swap w =
  Ret (Some (PopenObj [llama_swap_executable w])) (set_child ChildRunning (launching_world w)).
Proof.
  intros H Hp. unfold launch_llama_swap, try_except.
  rewrite (bind_Ret _ _ _ _ _ (exists_present w _ o H)). cbn [negb].
  unfold bind, print, subprocess_Popen. sim_world. rewrite Hp. reflexivity.
Qed.

Lemma launch_spawn_error (w : world) (o : fs_object) (msg : string) :
  fs w !! llama_swap_executable w = Some o ->
  popen_error w = Some msg ->
  launch_llama_swap w =
  Ret None (log (EvPrint ("Error launching llama-swap: " ++ msg)) (launching_world w)).
Proof.
  intros H Hp. unfold launch_llama_swap, try_except.
  rewrite (bind_Ret _ _ _ _ _ (exists_present w _ o H)). cbn [negb].
  unfold bind, print, subprocess_Popen. sim_world. rewrite Hp. reflexivity.
Qed.

(** The launcher never raises. *)
Lemma launch_llama_swap_returns (w : world) :
  exists r w', launch_llama_swap w = Ret r w' /\ fs w' = fs w.
Proof.
  destruct (fs w !! llama_swap_executable w) as [o|] eqn:H.
  - destruct (popen_error w) as [msg|] eqn:Hp.
    + rewrite (launch_spawn_error _ _ _ H Hp). eauto.
    + rewrite (launch_spawned _ _ H Hp). eauto.
  - rewrite (launch_absent _ H). eauto.
Qed.

(** ** From the start of [main] to the generated file *)

Lemma glob_result_env (w w' : world) (dir : string) (entries : list dirent) :
  platform_system w' = platform_system w ->
  glob_result w' dir entries = glob_result w dir entries.
Proof.
  intros H. unfold glob_result, matching, is_windows. rewrite H. reflexivity.
Qed.

Lemma llama_swap_executable_env (w w' : world) :
  platform_system w' = platform_system w ->
  script_dir w' = script_dir w ->
  llama_swap_executable w' = llama_swap_executable w.
Proof.
  intros H1 H2. unfold llama_swap_executable, is_windows. rewrite H1, H2. reflexivity.
Qed.

Lemma write_fails_after_extraction (w : world) :
  write_fails (after_extraction (started w)) "config.yaml" = write_fails w "config.yaml".
Proof.
  unfold write_fails.
  rewrite after_extraction_lookup by discriminate.
  destruct (after_extraction_env (started w)) as (_ & _ & _ & -> & _).
  reflexivity.
Qed.

Lemma main_generates (w : world) (entries : list dirent) :
  generates w entries ->
  main w = supervision (generated w entries).
Proof.
  intros (Hc & Hg & Hx & Hw).
  rewrite (main_reaches_pipeline w _ Hc Hx).
  assert (He : platform_system (after_extraction (started w)) = platform_system w)
    by exact (proj1 (after_extraction_env (started w))).
  unfold generated. rewrite <- (glob_result_env _ _ "configs" entries He).
  apply pipeline_generated.
  - rewrite after_extraction_lookup by discriminate. exact Hc.
  - rewrite (glob_result_env _ _ "configs" entries He). exact Hg.
  - rewrite write_fails_after_extraction. exact Hw.
Qed.

Lemma generated_env (w : world) (entries : list dirent) :
  platform_system (generated w entries) = platform_system w /\
  script_dir (generated w entries) = script_dir w /\
  popen_error (generated w entries) = popen_error w /\
  wait_events (generated w entries) = wait_events w.
Proof.
  unfold generated, generated_world, written_world. sim_world.
  destruct (after_extraction_env (started w)) as (-> & -> & _ & _ & -> & -> & _).
  repeat split.
Qed.

Lemma generated_lookup (w : world) (entries : list dirent) (path : string) :
  path <> "config.yaml" -> path <> "kcpp-extracted" ->
  fs (generated w entries) !! path = fs w !! path.
Proof.
  intros H1 H2. unfold generated, generated_world, written_world. sim_world.
  rewrite lookup_insert_ne by congruence.
  rewrite after_extraction_lookup by exact H2. reflexivity.
Qed.

Lemma generated_file (w : world) (entries : list dirent) :
  file_content "config.yaml" (generated w entries) =
  Some (yaml_dump w (build_config (glob_result w "configs" entries))).
Proof.
  unfold file_content, generated, generated_world, written_world. sim_world.
  rewrite lookup_insert_eq.
  destruct (after_extraction_env (started w)) as (_ & _ & -> & _).
  reflexivity.
Qed.

Lemma generated_executable (w : world) (entries : list dirent) :
  llama_swap_executable (generated w entries) = llama_swap_executable w /\
  fs (generated w entries) !! llama_swap_executable w = fs w !! llama_swap_executable w.
Proof.
  destruct (generated_env w entries) as (H1 & H2 & _).
  split; [apply llama_swap_executable_env; assumption|].
  apply generated_lookup; apply llama_swap_executable_other.
Qed.

Lemma main_launches (w : world) (entries : list dirent) (o : fs_object) :
  generates w entries ->
  fs w !! llama_swap_executable w = Some o ->
  popen_error w = None ->
  main w = supervise (PopenObj [llama_swap_executable w]) (launched w entries).
Proof.
  intros Hg Hexe Hp. rewrite (main_generates w entries Hg).
  destruct (generated_executable w entries) as [He Hl].
  destruct (generated_env w entries) as (_ & _ & Hpe & _).
  unfold supervision.
  rewrite (bind_Ret _ _ _ _ _
             (launch_spawned (generated w entries) o
                ltac:(rewrite He, Hl; exact Hexe) ltac:(rewrite Hpe; exact Hp))).
  rewrite He. reflexivity.
Qed.

Lemma launched_state (w : world) (entries : list dirent) :
  child (launched w entries) = ChildRunning /\
  wait_events (launched w entries) = wait_events w /\
  file_content "config.yaml" (launched w entries) =
  Some (yaml_dump w (build_config (glob_result w "configs" entries))).
Proof.
  split; [reflexivity|]. split.
  - unfold launched, launching_world. sim_world. apply generated_env.
  - rewrite <- (generated_file w entries). reflexivity.
Qed.

Lemma supervise_fs (process : Popen) (w : world) :
  fs (world_of (supervise process w)) = fs w.
Proof.
  destruct w as [ps sd yd f me uo we pe evs ch tr].
  destruct ch; try reflexivity.
  destruct evs as [|[|[|]] rest]; try reflexivity.
  destruct rest as [|[|[|]] rest']; reflexivity.
Qed.

Lemma supervision_fs (w : world) :
  fs (world_of (supervision w)) = fs w.
Proof.
  unfold supervision.
  destruct (launch_llama_swap_returns w) as (r & w' & Hl & Hfs).
  rewrite (bind_Ret _ _ _ _ _ Hl).
  destruct r as [process|]; [rewrite supervise_fs|]; exact Hfs.
Qed.

(** The world a run of the whole script leaves behind holds the same files
    as the world [main] leaves behind. *)
Lemma run_script_fs (w : world) :
  fs (snd (run_script w)) = fs (world_of (main w)).
Proof.
  unfold run_script.
  destruct (main w) as [a w'|[[|n|s]| |msg] w'|w']; reflexivity.
Qed.

(** ** Setup-incomplete: the configs folder is missing *)

Lemma run_missing_configs (w : world) :
  fs w !! "configs" = None ->
  makedirs_error w = None ->
  run_script w =
  (ExitStatus 1,
   log (EvStderr EmptyString)
       (log (EvPrint configs_created_message)
            (set_fs (<["configs" := Directory []]> (fs w))
                    (log (EvMakedirs "configs") (started w))))).
Proof.
  intros Hc Hm. unfold run_script. rewrite (main_missing_configs w Hc Hm). reflexivity.
Qed.

(** C1: run in a working directory without the configs folder, the program
    creates the folder, prints where to put the files, leaves the output
    file alone, and then ends through [quit] called with the empty string:
    [SystemExit] carries a string, which the interpreter prints on standard
    error before it exits with status 1, not with the status 0 of a
    success. *)
Theorem missing_configs_exit_status (w : world) :
  fs w !! "configs" = None ->
  makedirs_error w = None ->
  exists w',
    run_script w = (ExitStatus 1, w') /\
    fs w' !! "configs" = Some (Directory []) /\
    printed configs_created_message w' /\
    fs w' !! "config.yaml" = fs w !! "config.yaml" /\
    trace w' = trace w ++ setup_events.
Proof.
  intros Hc Hm. eexists. split; [apply (run_missing_configs w Hc Hm)|].
  sim_world. repeat split.
  - apply lookup_insert_eq.
  - unfold printed. sim_world. rewrite !in_app_iff. simpl. tauto.
  - apply lookup_insert_ne. discriminate.
  - rewrite <- !app_assoc. reflexivity.
Qed.

(** C7: a missing configs folder is a second condition that changes the
    exit status: the run ends with status 1 although nothing was opened for
    writing, whatever the write would have done. *)
Theorem exit_status_changes_without_write (w : world) :
  fs w !! "configs" = None ->
  makedirs_error w = None ->
  exists w' evs,
    run_script w = (ExitStatus 1, w') /\
    trace w' = trace w ++ evs /\
    (forall path, ~ In (EvOpenW path) evs) /\
    ExitStatus 1 <> ExitStatus 0.
Proof.
  intros Hc Hm. eexists. exists setup_events.
  split; [apply (run_missing_configs w Hc Hm)|].
  split; [sim_world; rewrite <- !app_assoc; reflexivity|].
  split; [|discriminate].
  intros path [H|[H|[H|[H|[]]]]]; discriminate H.
Qed.

(** What C7 says of the write failure itself holds: the failure is printed
    with its cause, and the run ends with status 1. *)
Lemma write_failure_exit_status (w : world) (entries : list dirent) :
  fs w !! "configs" = Some (Directory entries) ->
  glob_result w "configs" entries <> [] ->
  extraction_raises w = false ->
  write_fails w "config.yaml" = true ->
  exists e w1 w',
    open_and_dump "config.yaml" (build_config (glob_result w "configs" entries))
                  (after_extraction (started w)) = Raise e w1 /\
    run_script w = (ExitStatus 1, w') /\
    printed (error_writing "config.yaml" e) w' /\
    printed "Config generation failed." w'.
Proof.
  intros Hc Hg Hx Hw.
  assert (He : platform_system (after_extraction (started w)) = platform_system w)
    by exact (proj1 (after_extraction_env (started w))).
  destruct (pipeline_write_failure (after_extraction (started w)) entries)
    as (e & w1 & Ho & Hp).
  - rewrite after_extraction_lookup by discriminate. exact Hc.
  - rewrite (glob_result_env _ _ "configs" entries He). exact Hg.
  - rewrite write_fails_after_extraction. exact Hw.
  - rewrite (glob_result_env _ _ "configs" entries He) in Ho.
    exists e, w1. eexists. split; [exact Ho|].
    unfold run_script. rewrite (main_reaches_pipeline w _ Hc Hx), Hp.
    split; [reflexivity|]. unfold printed. sim_world.
    split; rewrite !in_app_iff; simpl; tauto.
Qed.

(** ** No input: the configs folder lists no matching entry *)

(** C6 (as amended): when the configs folder exists and lists no entry,
    regular file or subdirectory, whose name matches [*.kcpps], and the
    extraction step that comes first does not raise, the run reports the
    condition, exits with status 0 and neither opens nor changes the output
    file. *)
Theorem no_input_exit_status (w : world) (entries : list dirent) :
  fs w !! "configs" = Some (Directory entries) ->
  List.filter (matching w) entries = [] ->
  extraction_raises w = false ->
  exists w' evs,
    run_script w = (ExitStatus 0, w') /\
    printed (no_files_warning "configs") w' /\
    printed "No .kcpps files found. Exiting." w' /\
    fs w' !! "config.yaml" = fs w !! "config.yaml" /\
    trace w' = trace w ++ evs /\
    (forall path, ~ In (EvOpenW path) evs).
Proof.
  intros Hc Hf Hx.
  assert (He : platform_system (after_extraction (started w)) = platform_system w)
    by exact (proj1 (after_extraction_env (started w))).
  assert (Hrun : run_script w = (ExitStatus 0, no_input_world (after_extraction (started w)))).
  { unfold run_script. rewrite (main_reaches_pipeline w _ Hc Hx).
    rewrite (pipeline_no_input _ entries); [reflexivity| |].
    - rewrite after_extraction_lookup by discriminate. exact Hc.
    - unfold matching, is_windows in *. rewrite He. exact Hf. }
  destruct (after_extraction_trace (started w)) as [Ht|Ht].
  - eexists. exists [EvPrint "Kobold Swap"; EvPrint (no_files_warning "configs");
                     EvPrint "No .kcpps files found. Exiting."].
    split; [exact Hrun|]. unfold printed, no_input_world. sim_world. rewrite Ht. sim_world.
    repeat split.
    + rewrite !in_app_iff. simpl. tauto.
    + rewrite !in_app_iff. simpl. tauto.
    + rewrite after_extraction_lookup by discriminate. reflexivity.
    + rewrite <- !app_assoc. reflexivity.
    + intros path [H|[H|[H|[]]]]; discriminate H.
  - eexists. exists [EvPrint "Kobold Swap"; EvRun unpack_argv;
                     EvPrint (no_files_warning "configs");
                     EvPrint "No .kcpps files found. Exiting."].
    split; [exact Hrun|]. unfold printed, no_input_world. sim_world. rewrite Ht. sim_world.
    repeat split.
    + rewrite !in_app_iff. simpl. tauto.
    + rewrite !in_app_iff. simpl. tauto.
    + rewrite after_extraction_lookup by discriminate. reflexivity.
    + rewrite <- !app_assoc. reflexivity.
    + intros path [H|[H|[H|[H|[]]]]]; discriminate H.
Qed.

(** ** The proxy executable *)

Lemma generated_trace (w : world) (entries : list dirent) :
  exists evs,
    trace (generated w entries) = trace w ++ evs /\
    (forall argv, ~ In (EvPopen argv) evs).
Proof.
  unfold generated, generated_world, written_world. sim_world.
  destruct (after_extraction_trace (started w)) as [Ht|Ht]; rewrite Ht; sim_world.
  - eexists. split; [rewrite <- !app_assoc; reflexivity|].
    intros argv. simpl. intros [H|[H|[H|[H|[]]]]]; discriminate H.
  - eexists. split; [rewrite <- !app_assoc; reflexivity|].
    intros argv. simpl. intros [H|[H|[H|[H|[H|[]]]]]]; discriminate H.
Qed.

(** C8: the proxy is looked for in the directory of the script, under the
    name [llama-swap.exe] exactly when the platform is Windows and
    [llama-swap] otherwise; when nothing is found there after a successful
    generation, the run prints a warning, starts no child, leaves the
    generated file in place and exits with status 0. *)
Theorem missing_executable_not_fatal (w : world) (entries : list dirent) :
  generates w entries ->
  fs w !! llama_swap_executable w = None ->
  llama_swap_executable w =
    os_path_join (is_windows w) (script_dir w)
      (if String.eqb (platform_system w) "Windows" then "llama-swap.exe" else "llama-swap") /\
  exists w' evs,
    run_script w = (ExitStatus 0, w') /\
    printed (not_found_warning (llama_swap_executable w)) w' /\
    trace w' = trace w ++ evs /\
    (forall argv, ~ In (EvPopen argv) evs) /\
    child w' = child w /\
    file_content "config.yaml" w' =
      Some (yaml_dump w (build_config (glob_result w "configs" entries))).
Proof.
  intros Hg Hexe. split; [apply llama_swap_executable_name|].
  destruct (generated_executable w entries) as [He Hl].
  destruct (generated_trace w entries) as (evs & Ht & Hno).
  assert (Hrun : run_script w =
                 (ExitStatus 0,
                  log (EvPrint (not_found_warning (llama_swap_executable w)))
                      (generated w entries))).
  { unfold run_script. rewrite (main_generates w entries Hg). unfold supervision.
    rewrite (bind_Ret _ _ _ _ _
               (launch_absent (generated w entries) ltac:(rewrite He, Hl; exact Hexe))).
    rewrite He. reflexivity. }
  eexists. exists (evs ++ [EvPrint (not_found_warning (llama_swap_executable w))]).
  split; [exact Hrun|]. unfold printed. sim_world. repeat split.
  - rewrite in_app_iff. simpl. tauto.
  - rewrite Ht, <- app_assoc. reflexivity.
  - intros argv. rewrite in_app_iff. intros [H|[H|[]]]; [exact (Hno argv H)|discriminate H].
  - unfold generated, generated_world, written_world. sim_world.
    apply (after_extraction_env (started w)).
  - rewrite <- (generated_file w entries). reflexivity.
Qed.

(** A child that cannot be spawned is not fatal either: the error is printed
    and the run exits with status 0. *)
Lemma spawn_failure_not_fatal (w : world) (entries : list dirent) (o : fs_object)
      (msg : string) :
  generates w entries ->
  fs w !! llama_swap_executable w = Some o ->
  popen_error w = Some msg ->
  exists w',
    run_script w = (ExitStatus 0, w') /\
    printed ("Error launching llama-swap: " ++ msg) w' /\
    child w' = child w.
Proof.
  intros Hg Hexe Hp.
  destruct (generated_executable w entries) as [He Hl].
  destruct (generated_env w entries) as (_ & _ & Hpe & _).
  eexists. split.
  - unfold run_script. rewrite (main_generates w entries Hg). unfold supervision.
    rewrite (bind_Ret _ _ _ _ _
               (launch_spawn_error (generated w entries) o msg
                  ltac:(rewrite He, Hl; exact Hexe) ltac:(rewrite Hpe; exact Hp))).
    reflexivity.
  - unfold printed. sim_world. split; [rewrite in_app_iff; simpl; tauto|].
    unfold launching_world, generated, generated_world, written_world. sim_world.
    apply (after_extraction_env (started w)).
Qed.

(** ** Interrupts during the wait *)

Lemma supervise_interrupted (ws : world) (process : Popen) (b : bool)
      (rest : list wait_event) :
  child ws = ChildRunning ->
  wait_events ws = WInterrupt b :: rest ->
  trace (world_of (supervise process ws)) =
    (trace ws ++ [EvPrint "llama-swap launched successfully!"]) ++ shutdown_events /\
  match b, rest with
  | true, _ | false, WChildExits :: _ =>
      exists w', supervise process ws = Ret tt w' /\ child w' = ChildExited
  | false, [] =>
      exists w', supervise process ws = Hang w' /\ child w' = ChildRunning
  | false, WInterrupt b2 :: _ =>
      exists w', supervise process ws = Raise KeyboardInterrupt w' /\
                 child w' = if b2 then ChildExited else ChildRunning
  end.
Proof.
  destruct ws as [ps sd yd f me uo we pe evs ch tr]. sim_world.
  intros -> ->.
  destruct b; [|destruct rest as [|[|[|]] rest']];
    (split; [unfold shutdown_events, shutdown_message; cbn;
             rewrite <- ?app_assoc; reflexivity|]);
    eexists; split; reflexivity.
Qed.

(** C9 (as amended): when the wait on the running child is interrupted, the
    program prints the shutdown message, asks the child to terminate and
    waits again; provided this second wait is not interrupted in turn, the
    program ends, with status 0, only once the child has exited, and never
    ends while the child keeps running. *)
Theorem interrupt_graceful_shutdown (w : world) (entries : list dirent)
        (o : fs_object) (b : bool) (rest : list wait_event) :
  generates w entries ->
  fs w !! llama_swap_executable w = Some o ->
  popen_error w = None ->
  wait_events w = WInterrupt b :: rest ->
  second_wait_interrupted b rest = false ->
  exists t w' pre,
    run_script w = (t, w') /\
    trace w' = pre ++ shutdown_events /\
    ((t = ExitStatus 0 /\ child w' = ChildExited) \/
     (t = NeverExits /\ child w' = ChildRunning /\ b = false /\ rest = [])).
Proof.
  intros Hg Hexe Hp Hev Hsec.
  destruct (launched_state w entries) as (Hch & Hwe & _).
  rewrite Hev in Hwe.
  destruct (supervise_interrupted (launched w entries)
              (PopenObj [llama_swap_executable w]) b rest Hch Hwe) as [Htr Hcase].
  unfold run_script. rewrite (main_launches w entries o Hg Hexe Hp).
  destruct b; [|destruct rest as [|[|b2] rest']]; try discriminate Hsec;
    destruct Hcase as (w' & Hs & Hc); rewrite Hs in Htr |- *; cbn [world_of] in Htr.
  - exists (ExitStatus 0), w'. eexists. split; [reflexivity|]. split; [exact Htr|].
    left. split; [reflexivity|exact Hc].
  - exists NeverExits, w'. eexists. split; [reflexivity|]. split; [exact Htr|].
    right. repeat split. exact Hc.
  - exists (ExitStatus 0), w'. eexists. split; [reflexivity|]. split; [exact Htr|].
    left. split; [reflexivity|exact Hc].
Qed.

(** ** Discovery completeness *)

Lemma filter_forget_children (w : world) (entries : list dirent) :
  map dirent_name (List.filter (matching w) (map forget_children entries)) =
  map dirent_name (List.filter (matching w) entries).
Proof.
  induction entries as [|e l IH]; [reflexivity|].
  cbn [map List.filter].
  assert (Hm : matching w (forget_children e) = matching w e) by (destruct e; reflexivity).
  assert (Hn : dirent_name (forget_children e) = dirent_name e) by (destruct e; reflexivity).
  rewrite Hm. destruct (matching w e); cbn [map]; rewrite IH, ?Hn; reflexivity.
Qed.

Lemma filter_files_only (w : world) (entries : list dirent) :
  (forall e, In e entries -> matching w e = true -> dirent_is_file e = true) ->
  List.filter (matching w) entries =
  List.filter (fun e => dirent_is_file e && matching w e) entries.
Proof.
  induction entries as [|e l IH]; intros H; [reflexivity|].
  cbn [List.filter]. rewrite IH by (intros x Hx; apply H; right; exact Hx).
  destruct (matching w e) eqn:Hm.
  - rewrite (H e (or_introl eq_refl) Hm). reflexivity.
  - rewrite andb_false_r. reflexivity.
Qed.

(** C4 (as amended): for a directory that exists, discovery returns exactly
    one result per entry of the directory itself whose name matches
    [*.kcpps], regular file or subdirectory alike and in enumeration order,
    each result being that entry's path; nothing comes from an entry whose
    name does not match, and nothing from inside a subdirectory.  When no
    subdirectory carries a matching name, the results are exactly the
    matching files. *)
Theorem discovery_complete (w : world) (dir : string) (entries : list dirent) :
  fs w !! dir = Some (Directory entries) ->
  exists l w',
    find_kcpps_files dir w = Ret l w' /\
    l = map (fun e => [dir; dirent_name e]) (List.filter (matching w) entries) /\
    length l = length (List.filter (matching w) entries) /\
    (forall p, In p l <->
               exists e, In e entries /\ matching w e = true /\ p = [dir; dirent_name e]) /\
    l = glob_result w dir (map forget_children entries) /\
    ((forall e, In e entries -> matching w e = true -> dirent_is_file e = true) ->
     length l = length (List.filter (fun e => dirent_is_file e && matching w e) entries)).
Proof.
  intros H. exists (glob_result w dir entries).
  assert (Hret : exists w', find_kcpps_files dir w = Ret (glob_result w dir entries) w').
  { rewrite (find_kcpps_files_directory _ _ _ H).
    destruct (glob_result w dir entries) eqn:Hl; cbn [is_empty]; eauto. }
  destruct Hret as [w' Hret]. exists w'. split; [exact Hret|].
  split; [reflexivity|]. split; [unfold glob_result; apply length_map|].
  split; [|split].
  - intros p. unfold glob_result. rewrite in_map_iff. split.
    + intros (e & <- & He). apply filter_In in He as [He Hm]. exists e. auto.
    + intros (e & He & Hm & ->). exists e. split; [reflexivity|].
      apply filter_In. auto.
  - unfold glob_result.
    rewrite <- !(map_map dirent_name (fun n => Path_div [dir] n)).
    rewrite filter_forget_children. reflexivity.
  - intros Hfiles. unfold glob_result. rewrite length_map.
    rewrite (filter_files_only w entries Hfiles). reflexivity.
Qed.

(** ** Shape of the synthesized mapping *)

(** C2 (as amended): for N discovered files whose identifiers are pairwise
    distinct the mapping has exactly N entries, one per file and in discovery
    order; each entry's command is the fixed text with the identifier put in
    at exactly two positions, the [--config] path and the [--hordemodelname]
    value, and carries the text [${PORT}] as it stands. *)
Theorem mapping_shape (kcpps_files : list Path) :
  NoDup (map extract_filename kcpps_files) ->
  length (build_models kcpps_files) = length kcpps_files /\
  build_models kcpps_files =
    map (fun p => (key_of (extract_filename p), entry_of (extract_filename p))) kcpps_files /\
  forall p, In p kcpps_files ->
    let filename := extract_filename p in
    dict_get (entry_of filename) "cmd" =
      Some ("kcpp-extracted/koboldcpp-launcher --config configs/" ++ filename ++
            ".kcpps --port ${PORT} --hordemodelname " ++ filename)%string /\
    Str.contains (cmd_of filename) "${PORT}" = true.
Proof.
  intros Hnd. rewrite (build_models_distinct _ Hnd).
  split; [apply length_map|]. split; [reflexivity|].
  intros p _ filename. split; [reflexivity|apply cmd_of_contains_port].
Qed.

(** Whatever the identifiers, every entry of the mapping comes from a
    discovered file and there are never more entries than files. *)
Lemma build_models_sound (kcpps_files : list Path) :
  (length (build_models kcpps_files) <= length kcpps_files)%nat /\
  forall x, In x (build_models kcpps_files) ->
            exists p, In p kcpps_files /\ x = mk_item (extract_filename p).
Proof.
  rewrite build_models_fold. split.
  - apply (fold_add_file_length kcpps_files []).
  - intros x Hx. destruct (fold_add_file_items _ _ _ Hx) as [[]|H]. exact H.
Qed.

(** ** Determinism of the synthesis *)

(** C5: the bytes of the output file are a function of the sequence of
    discovered identifiers.  Two syntheses in a row over the same sequence of
    identifiers give the same result and leave the same files behind: what
    the first one wrote, the second one writes again byte for byte, and
    after a successful synthesis this is the dump of the mapping built from
    the identifiers, whatever the file held before. *)
Theorem synthesis_idempotent (kcpps_files kcpps_files' : list Path)
        (output_file : string) (w : world) :
  map extract_filename kcpps_files' = map extract_filename kcpps_files ->
  exists b w1 w2,
    generate_config_yaml kcpps_files output_file w = Ret b w1 /\
    generate_config_yaml kcpps_files' output_file w1 = Ret b w2 /\
    fs w2 = fs w1 /\
    (b = true ->
     file_content output_file w1 = Some (yaml_dump w (build_config kcpps_files))).
Proof.
  intros Hids.
  assert (Hcfg : build_config kcpps_files' = build_config kcpps_files).
  { unfold build_config. rewrite (build_models_identifiers _ _ Hids). reflexivity. }
  destruct kcpps_files as [|p l]; destruct kcpps_files' as [|p' l']; try discriminate Hids.
  - exists false. eexists _, _. repeat split. discriminate.
  - unfold generate_config_yaml. cbn [is_empty]. rewrite Hcfg.
    generalize (build_config (p :: l)). intros config.
    unfold try_except, bind, open_and_dump, print, ret. unfold file_content.
    destruct (fs w !! output_file) as [[c|es]|] eqn:Hout;
      [destruct (write_error w) as [[msg|msg wr]|] eqn:Hwe
      | | destruct (write_error w) as [[msg|msg wr]|] eqn:Hwe];
      cbn [is_Exception]; sim_world;
      eexists _, _, _; (split; [reflexivity|]);
      sim_world; rewrite ?lookup_insert_eq, ?Hout, ?Hwe; cbn [is_Exception]; sim_world;
      (split; [reflexivity|]); sim_world;
      (split; [try reflexivity; apply insert_insert_eq|]);
      try discriminate; intros _; rewrite ?lookup_insert_eq; reflexivity.
Qed.

(** ** Totality of the synthesis *)

(** In the model of the pipeline, where the list holds [Path] objects and
    the write raises nothing but an [Exception], [generate_config_yaml]
    returns a boolean in every world. *)
Lemma generate_config_yaml_total (kcpps_files : list Path) (output_file : string)
        (w : world) :
  exists b w',
    generate_config_yaml kcpps_files output_file w = Ret b w' /\
    b = negb (is_empty kcpps_files) && negb (write_fails w output_file) /\
    (b = false <-> kcpps_files = [] \/ write_fails w output_file = true) /\
    (kcpps_files = [] ->
     fs w' = fs w /\ trace w' = trace w ++ [EvPrint "No .kcpps files to process."]) /\
    (forall e w1,
        kcpps_files <> [] ->
        open_and_dump output_file (build_config kcpps_files) w = Raise e w1 ->
        b = false /\ w' = log (EvPrint (error_writing output_file e)) w1).
Proof.
  destruct kcpps_files as [|p l].
  - exists false. eexists. split; [apply generate_config_yaml_empty|].
    split; [reflexivity|]. split; [tauto|]. split; [auto|]. congruence.
  - assert (Hne : p :: l <> []) by discriminate.
    destruct (write_fails w output_file) eqn:Hw.
    + destruct (generate_config_yaml_failed _ output_file w Hne Hw) as (e & w1 & Ho & _ & _ & Hg).
      exists false. eexists. split; [exact Hg|]. split; [reflexivity|].
      split; [tauto|]. split; [discriminate|].
      intros e' w1' _ Ho'. rewrite Ho in Ho'. injection Ho' as <- <-. auto.
    + exists true. eexists. split; [apply (generate_config_yaml_written _ _ _ Hne Hw)|].
      split; [reflexivity|]. split; [|split; [discriminate|]].
      * split; [discriminate|]. intros [H|H]; discriminate H.
      * intros e w1 _ Ho. exfalso. unfold write_fails in Hw. unfold open_and_dump in Ho.
        destruct (fs w !! output_file) as [[c|es]|]; try discriminate Hw;
          destruct (write_error w) as [[msg|msg wr]|]; discriminate.
Qed.

(** Called on a list of [Path] objects while standard output accepts the
    lines and no interrupt arrives, the function is the one of the
    pipeline. *)
Lemma print_in_calm (hz : hazards) (line : string) (w : world) :
  stdout_error hz = None -> print_in hz line w = print line w.
Proof. intros H. unfold print_in. rewrite H. reflexivity. Qed.

Lemma open_and_dump_in_calm (hz : hazards) (output_file : string) (config : config_dict)
      (w : world) :
  interrupt_in_dump hz = None ->
  open_and_dump_in hz output_file config w = open_and_dump output_file config w.
Proof.
  intros H. unfold open_and_dump_in, open_and_dump. rewrite H.
  destruct (fs w !! output_file) as [[c|es]|];
    try destruct (write_error w) as [[msg|msg wr]|]; reflexivity.
Qed.

Lemma build_models_any_paths (kcpps_files : list Path) (models : models_dict) (w : world) :
  build_models_any models (map PyPath kcpps_files) w =
  Ret (fold_left
         (fun models kcpps_file =>
            let filename := extract_filename kcpps_file in
            let entry := generate_config_entry filename in
            dict_update models entry)
         kcpps_files models) w.
Proof.
  revert models. induction kcpps_files as [|p l IH]; intros models; [reflexivity|].
  cbn [map build_models_any extract_filename_any fold_left].
  unfold bind, ret. cbn beta iota. apply IH.
Qed.

Lemma generate_config_yaml_in_paths (hz : hazards) (kcpps_files : list Path)
      (output_file : string) (w : world) :
  stdout_error hz = None ->
  interrupt_in_dump hz = None ->
  generate_config_yaml_in hz (map PyPath kcpps_files) output_file w =
  generate_config_yaml kcpps_files output_file w.
Proof.
  intros Hout Hint. destruct kcpps_files as [|p l].
  - unfold generate_config_yaml_in, generate_config_yaml. cbn [map is_empty].
    unfold bind. rewrite (print_in_calm _ _ _ Hout). reflexivity.
  - unfold generate_config_yaml_in, generate_config_yaml.
    cbn [map is_empty]. unfold bind at 1.
    change (PyPath p :: map PyPath l) with (map PyPath (p :: l)).
    rewrite build_models_any_paths.
    change (fold_left _ (p :: l) []) with (build_models (p :: l)).
    change [("models", build_models (p :: l))] with (build_config (p :: l)).
    unfold try_except, bind.
    rewrite (open_and_dump_in_calm _ _ _ _ Hint).
    destruct (open_and_dump output_file (build_config (p :: l)) w) as [[] w1|e w1|w1].
    + rewrite (print_in_calm _ _ _ Hout). reflexivity.
    + destruct (is_Exception e); [|reflexivity].
      rewrite (print_in_calm _ _ _ Hout). reflexivity.
    + reflexivity.
Qed.

(** C10: called on a list of [Path] objects, while standard output accepts
    the lines and no interrupt arrives during the write,
    [generate_config_yaml] returns a boolean and raises nothing: an empty
    list gives [False] with nothing opened or written, an exception of the
    write is caught, printed and turned into [False], and so [False] stands
    for either of the two. *)
Theorem generate_config_yaml_returns (hz : hazards) (kcpps_files : list Path)
        (output_file : string) (w : world) :
  stdout_error hz = None ->
  interrupt_in_dump hz = None ->
  exists b w',
    generate_config_yaml_in hz (map PyPath kcpps_files) output_file w = Ret b w' /\
    b = negb (is_empty kcpps_files) && negb (write_fails w output_file) /\
    (b = false <-> kcpps_files = [] \/ write_fails w output_file = true) /\
    (kcpps_files = [] ->
     fs w' = fs w /\ trace w' = trace w ++ [EvPrint "No .kcpps files to process."]) /\
    (forall e w1,
        kcpps_files <> [] ->
        open_and_dump_in hz output_file (build_config kcpps_files) w = Raise e w1 ->
        is_Exception e = true /\ b = false /\
        w' = log (EvPrint (error_writing output_file e)) w1).
Proof.
  intros Hout Hint.
  destruct (generate_config_yaml_total kcpps_files output_file w)
    as (b & w' & Hrun & Hb & Hfalse & Hempty & Hcaught).
  exists b, w'. rewrite (generate_config_yaml_in_paths _ _ _ _ Hout Hint).
  split; [exact Hrun|]. split; [exact Hb|]. split; [exact Hfalse|].
  split; [exact Hempty|].
  intros e w1 Hne Hraise. rewrite (open_and_dump_in_calm _ _ _ _ Hint) in Hraise.
  split; [|exact (Hcaught e w1 Hne Hraise)].
  unfold open_and_dump in Hraise.
  destruct (fs w !! output_file) as [[c|es]|];
    try destruct (write_error w) as [[msg|msg wr]|];
    try discriminate Hraise; injection Hraise as <- _; reflexivity.
Qed.

(** ** The two-file example *)

Lemma two_files_config (w : world) (x y : string) :
  matching w (DFile (x ++ ".kcpps")) = true ->
  matching w (DFile (y ++ ".kcpps")) = true ->
  Path_stem ["configs"; (x ++ ".kcpps")%string] = x ->
  Path_stem ["configs"; (y ++ ".kcpps")%string] = y ->
  x <> y ->
  glob_result w "configs" [DFile (x ++ ".kcpps"); DFile (y ++ ".kcpps")] <> [] /\
  build_config (glob_result w "configs" [DFile (x ++ ".kcpps"); DFile (y ++ ".kcpps")]) =
  [("models", [example_entry x; example_entry y])].
Proof.
  intros Hx Hy Sx Sy Hne. unfold glob_result. cbn [List.filter]. rewrite Hx, Hy.
  split; [discriminate|].
  unfold build_config. rewrite build_models_distinct.
  - cbn [map dirent_name Path_div app]. unfold extract_filename. rewrite Sx, Sy. reflexivity.
  - cbn [map dirent_name Path_div app]. unfold extract_filename. rewrite Sx, Sy.
    apply NoDup_cons. split; [|apply NoDup_singleton].
    intros H. apply list_elem_of_In in H. destruct H as [H|[]]. congruence.
Qed.

Lemma matching_example (w : world) (x : string) :
  x = "a" \/ x = "b" -> matching w (DFile (x ++ ".kcpps")) = true.
Proof.
  unfold matching. intros [->| ->]; destruct (is_windows w); reflexivity.
Qed.

(** C3 (as amended): with exactly the files [a.kcpps] and [b.kcpps] in the
    configs folder, the mapping handed to the serializer has under [models]
    the two keys [koboldcpp/a] and [koboldcpp/b] in the order in which the
    folder enumerates the two files ([a] first when [a.kcpps] is enumerated
    first, [b] first otherwise), each with the two keys [cmd] and
    [checkEndpoint] and nothing else, [checkEndpoint] being [/ping] and [cmd]
    naming [configs/a.kcpps] and [configs/b.kcpps] respectively; a run that
    gets as far as writing leaves the dump of exactly this mapping in the
    output file. *)
Theorem two_files_example (w : world) (entries : list dirent) :
  fs w !! "configs" = Some (Directory entries) ->
  Permutation entries [file_a; file_b] ->
  exists l w' models,
    find_kcpps_files "configs" w = Ret l w' /\
    build_config l = [("models", models)] /\
    ((entries = [file_a; file_b] /\ models = [example_entry "a"; example_entry "b"]) \/
     (entries = [file_b; file_a] /\ models = [example_entry "b"; example_entry "a"])) /\
    (extraction_raises w = false ->
     write_fails w "config.yaml" = false ->
     file_content "config.yaml" (snd (run_script w)) =
       Some (yaml_dump w [("models", models)])).
Proof.
  intros Hc Hperm.
  assert (Hfile : forall es,
             generates w es ->
             file_content "config.yaml" (snd (run_script w)) =
             Some (yaml_dump w (build_config (glob_result w "configs" es)))).
  { intros es Hg. unfold file_content.
    rewrite run_script_fs, (main_generates w es Hg), supervision_fs.
    apply (generated_file w es). }
  assert (Hfind : forall es,
             fs w !! "configs" = Some (Directory es) ->
             glob_result w "configs" es <> [] ->
             find_kcpps_files "configs" w = Ret (glob_result w "configs" es) w).
  { intros es Hes Hne. rewrite (find_kcpps_files_directory _ _ _ Hes).
    destruct (glob_result w "configs" es); [congruence|reflexivity]. }
  apply Permutation_sym, Permutation_length_2_inv in Hperm.
  destruct Hperm as [->| ->].
  - destruct (two_files_config w "a" "b") as [Hne Hcfg];
      [apply matching_example; auto|apply matching_example; auto
       |reflexivity|reflexivity|discriminate|].
    exists (glob_result w "configs" [file_a; file_b]), w,
           [example_entry "a"; example_entry "b"].
    split; [apply (Hfind _ Hc Hne)|]. split; [exact Hcfg|].
    split; [left; split; reflexivity|].
    intros Hx Hw. rewrite (Hfile [file_a; file_b]) by (repeat split; assumption).
    f_equal. f_equal. exact Hcfg.
  - destruct (two_files_config w "b" "a") as [Hne Hcfg];
      [apply matching_example; auto|apply matching_example; auto
       |reflexivity|reflexivity|discriminate|].
    exists (glob_result w "configs" [file_b; file_a]), w,
           [example_entry "b"; example_entry "a"].
    split; [apply (Hfind _ Hc Hne)|]. split; [exact Hcfg|].
    split; [right; split; reflexivity|].
    intros Hx Hw. rewrite (Hfile [file_b; file_a]) by (repeat split; assumption).
    f_equal. f_equal. exact Hcfg.
Qed.

(** ** Worked examples *)

Example identifier_in_fixed_text : Str.occurrences (cmd_of "a") "a" = 5%nat.
Proof. reflexivity. Qed.

Lemma missing_configs_exit_status_witness :
  fs fresh_world !! "configs" = None /\
  makedirs_error fresh_world = None /\
  exists w',
    run_script fresh_world = (ExitStatus 1, w') /\
    fs w' !! "configs" = Some (Directory []) /\
    printed configs_created_message w' /\
    fs w' !! "config.yaml" = fs fresh_world !! "config.yaml" /\
    trace w' = trace fresh_world ++ setup_events.
Proof.
  split; [reflexivity|]. split; [reflexivity|].
  apply (missing_configs_exit_status fresh_world); reflexivity.
Defined.

Lemma exit_status_changes_without_write_witness :
  fs fresh_world !! "configs" = None /\
  makedirs_error fresh_world = None /\
  exists w' evs,
    run_script fresh_world = (ExitStatus 1, w') /\
    trace w' = trace fresh_world ++ evs /\
    (forall path, ~ In (EvOpenW path) evs) /\
    ExitStatus 1 <> ExitStatus 0.
Proof.
  split; [reflexivity|]. split; [reflexivity|].
  apply (exit_status_changes_without_write fresh_world); reflexivity.
Defined.

Lemma no_input_exit_status_witness :
  fs no_input_example !! "configs" =
    Some (Directory [DFile "notes.txt"; DDir "old" [DFile "x.kcpps"]]) /\
  List.filter (matching no_input_example)
              [DFile "notes.txt"; DDir "old" [DFile "x.kcpps"]] = [] /\
  extraction_raises no_input_example = false /\
  exists w' evs,
    run_script no_input_example = (ExitStatus 0, w') /\
    printed (no_files_warning "configs") w' /\
    printed "No .kcpps files found. Exiting." w' /\
    fs w' !! "config.yaml" = fs no_input_example !! "config.yaml" /\
    trace w' = trace no_input_example ++ evs /\
    (forall path, ~ In (EvOpenW path) evs).
Proof.
  split; [reflexivity|]. split; [reflexivity|]. split; [reflexivity|].
  apply (no_input_exit_status no_input_example
           [DFile "notes.txt"; DDir "old" [DFile "x.kcpps"]]); reflexivity.
Defined.

(** C6, counterexample: with no regular file of a matching name in the
    configs folder the run still writes the output file when a subdirectory
    carries such a name, and ends with status 1 without a word about the
    missing files when the extraction step raises. *)
Lemma no_matching_file_still_writes :
  (List.filter (fun e => dirent_is_file e && matching only_subdirectory e)
               [DDir "sub.kcpps" []] = [] /\
   fs only_subdirectory !! "config.yaml" = None /\
   file_content "config.yaml" (snd (run_script only_subdirectory)) =
     Some (example_dump [("models", [example_entry "sub"])])) /\
  (fst (run_script extraction_fails) = ExitStatus 1 /\
   ~ printed "No .kcpps files found. Exiting." (snd (run_script extraction_fails))) /\
  ~ no_matching_file_ends_quietly.
Proof.
  split; [repeat split; reflexivity|]. split.
  - split; [reflexivity|]. unfold printed. vm_compute.
    intros [H|[H|[H|[]]]]; discriminate H.
  - intros H.
    destruct (H only_subdirectory [DDir "sub.kcpps" []] eq_refl eq_refl)
      as (w' & Hrun & _ & Hfs).
    assert (E : fs (snd (run_script only_subdirectory)) !! "config.yaml" =
                Some (RegularFile (example_dump [("models", [example_entry "sub"])])))
      by reflexivity.
    rewrite Hrun in E. cbn [snd] in E. rewrite Hfs in E. discriminate E.
Qed.

Lemma generates_example (entries : list dirent) (w : world) :
  fs w !! "configs" = Some (Directory entries) ->
  is_empty (glob_result w "configs" entries) = false ->
  extraction_raises w = false ->
  write_fails w "config.yaml" = false ->
  generates w entries.
Proof.
  intros H1 H2 H3 H4. repeat split; try assumption.
  intros E. rewrite E in H2. discriminate H2.
Defined.

Lemma missing_executable_not_fatal_witness :
  generates (example_world_no_proxy [file_a; file_b]) [file_a; file_b] /\
  fs (example_world_no_proxy [file_a; file_b])
    !! llama_swap_executable (example_world_no_proxy [file_a; file_b]) = None /\
  llama_swap_executable (example_world_no_proxy [file_a; file_b]) =
    "/opt/kobold-swap/llama-swap" /\
  exists w',
    run_script (example_world_no_proxy [file_a; file_b]) = (ExitStatus 0, w') /\
    child w' = NoChild /\
    file_content "config.yaml" w' =
      Some (example_dump [("models", [example_entry "a"; example_entry "b"])]).
Proof.
  assert (Hg : generates (example_world_no_proxy [file_a; file_b]) [file_a; file_b])
    by (apply generates_example; reflexivity).
  split; [exact Hg|]. split; [reflexivity|]. split; [reflexivity|].
  destruct (missing_executable_not_fatal
              (example_world_no_proxy [file_a; file_b]) [file_a; file_b] Hg eq_refl)
    as (_ & w' & evs & Hrun & _ & _ & _ & Hchild & Hfile).
  exists w'. split; [exact Hrun|]. split; [exact Hchild|exact Hfile].
Defined.

Lemma interrupt_graceful_shutdown_witness :
  generates (example_world [file_a] [WInterrupt false; WChildExits]) [file_a] /\
  fs (example_world [file_a] [WInterrupt false; WChildExits])
    !! llama_swap_executable (example_world [file_a] [WInterrupt false; WChildExits]) =
    Some (RegularFile "ELF") /\
  popen_error (example_world [file_a] [WInterrupt false; WChildExits]) = None /\
  wait_events (example_world [file_a] [WInterrupt false; WChildExits]) =
    WInterrupt false :: [WChildExits] /\
  second_wait_interrupted false [WChildExits] = false /\
  exists t w' pre,
    run_script (example_world [file_a] [WInterrupt false; WChildExits]) = (t, w') /\
    trace w' = pre ++ shutdown_events /\
    ((t = ExitStatus 0 /\ child w' = ChildExited) \/
     (t = NeverExits /\ child w' = ChildRunning /\ false = false /\ [WChildExits] = [])).
Proof.
  assert (Hg : generates (example_world [file_a] [WInterrupt false; WChildExits]) [file_a])
    by (apply generates_example; reflexivity).
  split; [exact Hg|]. split; [reflexivity|]. split; [reflexivity|].
  split; [reflexivity|]. split; [reflexivity|].
  apply (interrupt_graceful_shutdown
           (example_world [file_a] [WInterrupt false; WChildExits]) [file_a]
           (RegularFile "ELF") false [WChildExits] Hg); reflexivity.
Defined.

(** C9, counterexample: two interrupts in a row.  The second one arrives
    while the handler waits for the child; nothing catches it, and the
    program ends while the child is still running. *)
Lemma second_interrupt_abandons_child :
  (exists w',
      run_script (example_world [file_a] [WInterrupt false; WInterrupt false]) =
        (KilledByInterrupt, w') /\
      child w' = ChildRunning) /\
  ~ awaits_child_after_any_interrupt.
Proof.
  assert (Hrun : exists w',
             run_script (example_world [file_a] [WInterrupt false; WInterrupt false]) =
               (KilledByInterrupt, w') /\
             child w' = ChildRunning).
  { eexists. split; [vm_compute; reflexivity|reflexivity]. }
  split; [exact Hrun|].
  intros H. destruct Hrun as (w' & Hrun & Hchild).
  destruct (H (example_world [file_a] [WInterrupt false; WInterrupt false]) [file_a]
              (RegularFile "ELF") false [WInterrupt false] KilledByInterrupt w')
    as [_ Hexit];
    [apply generates_example; reflexivity|reflexivity|reflexivity|reflexivity|exact Hrun|].
  rewrite Hexit in Hchild; discriminate.
Qed.

Lemma discovery_complete_witness :
  fs (example_world_no_proxy mixed_listing) !! "configs" = Some (Directory mixed_listing) /\
  exists w',
    find_kcpps_files "configs" (example_world_no_proxy mixed_listing) =
      Ret [["configs"; "a.kcpps"]; ["configs"; "sub.kcpps"]] w'.
Proof.
  split; [reflexivity|].
  destruct (discovery_complete (example_world_no_proxy mixed_listing) "configs"
              mixed_listing eq_refl) as (l & w' & Hfind & Hl & _).
  exists w'. rewrite Hfind, Hl. reflexivity.
Defined.

(** C4, counterexample: one regular file carries a matching name, yet
    discovery returns two results, the second being the subdirectory
    [sub.kcpps]. *)
Lemma matching_subdirectory_is_discovered :
  length (List.filter
            (fun e => dirent_is_file e && matching (example_world_no_proxy mixed_listing) e)
            mixed_listing) = 1%nat /\
  (exists w',
      find_kcpps_files "configs" (example_world_no_proxy mixed_listing) =
        Ret [["configs"; "a.kcpps"]; ["configs"; "sub.kcpps"]] w') /\
  ~ discovery_counts_matching_files.
Proof.
  split; [reflexivity|]. split; [eexists; reflexivity|].
  intros H.
  destruct (H (example_world_no_proxy mixed_listing) "configs" mixed_listing eq_refl)
    as (l & w' & Hfind & Hlen).
  assert (Hl : l = [["configs"; "a.kcpps"]; ["configs"; "sub.kcpps"]]).
  { assert (E : find_kcpps_files "configs" (example_world_no_proxy mixed_listing) =
                Ret [["configs"; "a.kcpps"]; ["configs"; "sub.kcpps"]]
                    (example_world_no_proxy mixed_listing)) by reflexivity.
    rewrite E in Hfind. injection Hfind as <- _. reflexivity. }
  rewrite Hl in Hlen. discriminate Hlen.
Qed.

Lemma mapping_shape_witness :
  NoDup (map extract_filename [["configs"; "a.kcpps"]; ["configs"; "b.kcpps"]]) /\
  build_models [["configs"; "a.kcpps"]; ["configs"; "b.kcpps"]] =
    [example_entry "a"; example_entry "b"].
Proof.
  assert (Hnd : NoDup (map extract_filename [["configs"; "a.kcpps"]; ["configs"; "b.kcpps"]])).
  { apply (bool_decide_unpack _). vm_compute. exact I. }
  split; [exact Hnd|].
  destruct (mapping_shape [["configs"; "a.kcpps"]; ["configs"; "b.kcpps"]] Hnd)
    as (_ & Hmodels & _).
  rewrite Hmodels. reflexivity.
Defined.

(** C2, counterexample: two discovered files, one entry. *)
Lemma shared_identifier_single_entry :
  (exists w',
      find_kcpps_files "configs" (example_world_no_proxy hidden_listing) =
        Ret [["configs"; ".kcpps"]; ["configs"; ".kcpps.kcpps"]] w') /\
  map extract_filename [["configs"; ".kcpps"]; ["configs"; ".kcpps.kcpps"]] =
    [".kcpps"; ".kcpps"] /\
  dict_keys (build_models [["configs"; ".kcpps"]; ["configs"; ".kcpps.kcpps"]]) =
    ["koboldcpp/.kcpps"] /\
  ~ one_entry_per_discovered_file.
Proof.
  split; [eexists; reflexivity|]. split; [reflexivity|]. split; [reflexivity|].
  intros H.
  specialize (H (example_world_no_proxy hidden_listing)
                (example_world_no_proxy hidden_listing)
                [["configs"; ".kcpps"]; ["configs"; ".kcpps.kcpps"]] eq_refl).
  discriminate H.
Qed.

Lemma two_files_example_witness :
  fs (example_world_no_proxy [file_b; file_a]) !! "configs" =
    Some (Directory [file_b; file_a]) /\
  Permutation [file_b; file_a] [file_a; file_b] /\
  file_content "config.yaml" (snd (run_script (example_world_no_proxy [file_b; file_a]))) =
    Some (example_dump [("models", [example_entry "b"; example_entry "a"])]).
Proof.
  split; [reflexivity|]. split; [apply perm_swap|].
  destruct (two_files_example (example_world_no_proxy [file_b; file_a]) [file_b; file_a]
              eq_refl (perm_swap _ _ _))
    as (l & w' & models & _ & _ & [[Hab _]|[_ Hmodels]] & Hfile).
  - discriminate Hab.
  - rewrite (Hfile eq_refl eq_refl), Hmodels. reflexivity.
Defined.

(** C3, counterexample: the folder enumerates [b.kcpps] before [a.kcpps],
    and the keys come out as [b] then [a]. *)
Lemma enumeration_order_decides_key_order :
  (exists w',
      find_kcpps_files "configs" (example_world_no_proxy [file_b; file_a]) =
        Ret [["configs"; "b.kcpps"]; ["configs"; "a.kcpps"]] w') /\
  dict_keys (build_models [["configs"; "b.kcpps"]; ["configs"; "a.kcpps"]]) =
    ["koboldcpp/b"; "koboldcpp/a"] /\
  ~ keys_follow_file_names.
Proof.
  split; [eexists; reflexivity|]. split; [reflexivity|].
  intros H.
  destruct (H (example_world_no_proxy [file_b; file_a]) [file_b; file_a] eq_refl
              (perm_swap _ _ _)) as (l & w' & Hfind & Hkeys).
  assert (E : find_kcpps_files "configs" (example_world_no_proxy [file_b; file_a]) =
              Ret [["configs"; "b.kcpps"]; ["configs"; "a.kcpps"]]
                  (example_world_no_proxy [file_b; file_a])) by reflexivity.
  rewrite E in Hfind. injection Hfind as <- _. discriminate Hkeys.
Qed.

Lemma synthesis_idempotent_witness :
  map extract_filename [["elsewhere"; "a.kcpps"]] =
    map extract_filename [["configs"; "a.kcpps"]] /\
  exists w1 w2,
    generate_config_yaml [["configs"; "a.kcpps"]] "config.yaml"
                         (example_world_no_proxy [file_a]) = Ret true w1 /\
    generate_config_yaml [["elsewhere"; "a.kcpps"]] "config.yaml" w1 = Ret true w2 /\
    file_content "config.yaml" w2 =
      Some (example_dump [("models", [example_entry "a"])]).
Proof.
  split; [reflexivity|].
  destruct (synthesis_idempotent [["configs"; "a.kcpps"]] [["elsewhere"; "a.kcpps"]]
              "config.yaml" (example_world_no_proxy [file_a]) eq_refl)
    as (b & w1 & w2 & Hfirst & Hsecond & Hfs & Hfile).
  assert (Hb : b = true).
  { assert (E : exists w0,
               generate_config_yaml [["configs"; "a.kcpps"]] "config.yaml"
                                    (example_world_no_proxy [file_a]) = Ret true w0)
      by (eexists; vm_compute; reflexivity).
    destruct E as [w0 E]. rewrite E in Hfirst. injection Hfirst as Hb _.
    symmetry. exact Hb. }
  subst b. exists w1, w2. split; [exact Hfirst|]. split; [exact Hsecond|].
  unfold file_content. rewrite Hfs. exact (Hfile eq_refl).
Defined.

Lemma generate_config_yaml_returns_witness :
  stdout_error calm = None /\
  interrupt_in_dump calm = None /\
  exists w',
    generate_config_yaml_in calm [PyPath ["configs"; "a.kcpps"]] "config.yaml"
                            (example_world_no_proxy [file_a]) = Ret true w'.
Proof.
  split; [reflexivity|]. split; [reflexivity|].
  destruct (generate_config_yaml_returns calm [["configs"; "a.kcpps"]] "config.yaml"
              (example_world_no_proxy [file_a]) eq_refl eq_refl)
    as (b & w' & Hrun & Hb & _).
  exists w'. cbn [map] in Hrun. rewrite Hrun, Hb. reflexivity.
Defined.

(** C10, counterexample: three calls that end in an exception.  A list of
    file names given as strings fails in the loop, before the [try], with
    nothing printed or opened; an interrupt during the dump is no
    [Exception] and passes the handler, leaving the file cut short; and on a
    closed standard output the [print] of the handler raises itself. *)
Lemma string_element_propagates :
  (forall w : world,
      generate_config_yaml_in calm names_as_strings "config.yaml" w =
      Raise (PyError "'str' object has no attribute 'stem'") w) /\
  (exists w',
      generate_config_yaml_in interrupted_dump [PyPath ["configs"; "a.kcpps"]]
                              "config.yaml" (example_world_no_proxy [file_a]) =
        Raise KeyboardInterrupt w' /\
      file_content "config.yaml" w' = Some "models:") /\
  (exists w',
      generate_config_yaml_in closed_stdout [PyPath ["configs"; "a.kcpps"]]
                              "config.yaml" (example_world_no_proxy [file_a]) =
        Raise (PyError "I/O operation on closed file") w' /\
      In (EvOpenW "config.yaml") (trace w')) /\
  ~ returns_for_every_list /\
  ~ every_write_exception_is_caught.
Proof.
  split; [intros w; reflexivity|].
  split; [eexists; split; vm_compute; reflexivity|].
  split; [eexists; split; [vm_compute; reflexivity|]; vm_compute; auto|].
  split.
  - intros H.
    destruct (H names_as_strings "config.yaml" fresh_world) as (b & w' & Hrun).
    discriminate Hrun.
  - intros H.
    assert (Hraise : exists w1,
               open_and_dump_in interrupted_dump "config.yaml"
                                (build_config [["configs"; "a.kcpps"]])
                                (example_world_no_proxy [file_a]) =
               Raise KeyboardInterrupt w1)
      by (eexists; vm_compute; reflexivity).
    destruct Hraise as [w1 Hraise].
    destruct (H interrupted_dump [["configs"; "a.kcpps"]] "config.yaml"
                (example_world_no_proxy [file_a]) w1 KeyboardInterrupt
                eq_refl ltac:(discriminate) Hraise) as [w' Hrun].
    vm_compute in Hrun. discriminate Hrun.
Qed.

(** * Further properties of the program *)

(** ** Every run is of one of the kinds of [runs] *)

Lemma run_script_conclude (w : world) : run_script w = conclude (main w).
Proof. reflexivity. Qed.

Lemma skipn_app_exact {A : Type} (l k : list A) : skipn (length l) (l ++ k) = k.
Proof. induction l as [|x l IH]; [reflexivity|exact IH]. Qed.

Lemma observed_events (w : world) (t : termination) (w' : world) (evs : list event) :
  trace w' = trace w ++ evs ->
  observed w (t, w') = mkSummary t evs (child w') (fs w').
Proof.
  intros H. unfold observed. cbn [fst snd]. rewrite H, skipn_app_exact. reflexivity.
Qed.

Lemma after_extraction_started (w : world) :
  trace (after_extraction (started w)) = trace w ++ opening_events w /\
  fs (after_extraction (started w)) = extraction_fs w /\
  child (after_extraction (started w)) = child w.
Proof.
  unfold after_extraction, opening_events, extraction_events, extraction_fs. sim_world.
  destruct (fs w !! "kcpp-extracted"); [repeat split|].
  destruct (unpack_outcome w) as [msg|[|]]; sim_world;
    rewrite <- ?app_assoc; repeat split.
Qed.

Lemma extraction_fs_lookup (w : world) (path : string) :
  path <> "kcpp-extracted" -> extraction_fs w !! path = fs w !! path.
Proof.
  intros H. unfold extraction_fs.
  destruct (fs w !! "kcpp-extracted"); [reflexivity|].
  destruct (unpack_outcome w) as [msg|[|]]; try reflexivity.
  apply lookup_insert_ne. congruence.
Qed.

Lemma failed_write_fails (w : world) (output_file : string) :
  write_fails w output_file = true <-> failed_write w (fs w) output_file <> None.
Proof.
  unfold write_fails, failed_write.
  destruct (fs w !! output_file) as [[c|es]|];
    try destruct (write_error w) as [[msg|msg wr]|]; split; congruence.
Qed.

Lemma failed_write_extraction (w : world) :
  failed_write w (extraction_fs w) "config.yaml" = None <->
  write_fails w "config.yaml" = false.
Proof.
  unfold write_fails, failed_write. rewrite extraction_fs_lookup by discriminate.
  destruct (fs w !! "config.yaml") as [[c|es]|];
    try destruct (write_error w) as [[msg|msg wr]|]; split; congruence.
Qed.

Lemma generate_config_yaml_fails (kcpps_files : list Path) (output_file : string)
      (w : world) (msg : string) (f : gmap string fs_object) :
  kcpps_files <> [] ->
  failed_write w (fs w) output_file = Some (msg, f) ->
  generate_config_yaml kcpps_files output_file w =
  Ret false (log (EvPrint (error_writing output_file (PyError msg)))
                 (set_fs f (log (EvOpenW output_file) w))).
Proof.
  intros Hne Hw. destruct kcpps_files as [|p l]; [congruence|].
  unfold failed_write in Hw.
  unfold generate_config_yaml, try_except, bind, open_and_dump. cbn [is_empty].
  destruct (fs w !! output_file) as [[c|es]|];
    try destruct (write_error w) as [[m|m wr]|]; try discriminate Hw;
    injection Hw as <- <-; reflexivity.
Qed.

Lemma main_makedirs_fails (w : world) (msg : string) :
  fs w !! "configs" = None ->
  makedirs_error w = Some msg ->
  main w = Raise (PyError msg) (log (EvMakedirs "configs") (started w)).
Proof.
  intros Hc Hm. unfold main.
  rewrite (bind_Ret _ _ w (started w) tt) by reflexivity.
  rewrite (bind_Ret _ _ _ _ _ (exists_absent (started w) "configs" Hc)). cbn [negb].
  apply bind_Raise. apply bind_Raise.
  unfold os_makedirs. sim_world. rewrite Hm. reflexivity.
Qed.

Lemma main_extraction_fails (w : world) (o : fs_object) (msg : string) :
  fs w !! "configs" = Some o ->
  fs w !! "kcpp-extracted" = None ->
  unpack_outcome w = RunRaises msg ->
  main w = Raise (PyError msg) (log (EvRun unpack_argv) (started w)).
Proof.
  intros Hc Hk Hu. unfold main.
  rewrite (bind_Ret _ _ w (started w) tt) by reflexivity.
  rewrite (bind_Ret _ _ _ _ _ (exists_present (started w) "configs" o Hc)). cbn [negb].
  rewrite (bind_Ret _ _ (started w) (started w) tt) by reflexivity.
  rewrite (bind_Ret _ _ _ _ _ (exists_absent (started w) "kcpp-extracted" Hk)).
  cbn [negb]. apply bind_Raise. unfold subprocess_run. sim_world. rewrite Hu. reflexivity.
Qed.

Lemma pipeline_not_a_directory (w : world) (content : string) :
  fs w !! "configs" = Some (RegularFile content) ->
  pipeline w = Ret tt (no_input_world w).
Proof.
  intros Hc. unfold pipeline.
  rewrite (bind_Ret _ _ _ _ _ (find_kcpps_files_regular _ _ _ Hc)). reflexivity.
Qed.

Lemma pipeline_write_fails (w : world) (entries : list dirent) (msg : string)
      (f : gmap string fs_object) :
  fs w !! "configs" = Some (Directory entries) ->
  glob_result w "configs" entries <> [] ->
  failed_write w (fs w) "config.yaml" = Some (msg, f) ->
  pipeline w =
  Raise (SystemExit (ExitInt 1))
        (log (EvPrint "Config generation failed.")
             (log (EvPrint (error_writing "config.yaml" (PyError msg)))
                  (set_fs f (log (EvOpenW "config.yaml") w)))).
Proof.
  intros Hc Hg Hw. unfold pipeline.
  rewrite (bind_Ret _ _ w w (glob_result w "configs" entries)).
  2:{ rewrite (find_kcpps_files_directory _ _ _ Hc).
      destruct (glob_result w "configs" entries); [congruence|reflexivity]. }
  destruct (glob_result w "configs" entries) as [|p l] eqn:Hl; [congruence|].
  cbn [is_empty].
  rewrite (bind_Ret _ _ _ _ _ (generate_config_yaml_fails (p :: l) "config.yaml" w msg f Hg Hw)).
  reflexivity.
Qed.

Lemma generated_summary (w : world) (entries : list dirent) :
  trace (generated w entries) = trace w ++ generation_events w /\
  fs (generated w entries) = generated_fs w entries /\
  child (generated w entries) = child w.
Proof.
  destruct (after_extraction_started w) as (Ht & Hf & Hc).
  destruct (after_extraction_env (started w)) as (_ & _ & Hy & _).
  unfold generated, generated_world, written_world, generation_events, generated_fs.
  sim_world. rewrite Ht, Hf, Hc, Hy. sim_world.
  rewrite <- !app_assoc. repeat split.
Qed.

Lemma supervise_conclude (ws : world) (process : Popen) :
  child ws = ChildRunning ->
  exists w',
    conclude (supervise process ws) = (fst (fst (supervise_summary (wait_events ws))), w') /\
    trace w' = trace ws ++ EvPrint "llama-swap launched successfully!" ::
                           snd (supervise_summary (wait_events ws)) /\
    child w' = snd (fst (supervise_summary (wait_events ws))) /\
    fs w' = fs ws.
Proof.
  destruct ws as [ps sd yd f me uo we pe evs ch tr]. sim_world. intros ->.
  destruct evs as [|[|[|]] rest]; [| | |destruct rest as [|[|[|]] rest']];
    eexists; (split; [reflexivity|]);
    cbn; unfold shutdown_message; rewrite <- ?app_assoc; repeat split.
Qed.

(** Every run of the script is of one of the kinds of [runs], and what it
    adds to the trace comes after what was there. *)
Lemma run_script_runs (w : world) :
  runs w (observed w (run_script w)) /\
  trace (snd (run_script w)) = trace w ++ s_events (observed w (run_script w)).
Proof.
  assert (Hk : forall t w' evs c f,
             run_script w = (t, w') ->
             runs w (mkSummary t evs c f) ->
             trace w' = trace w ++ evs ->
             child w' = c ->
             fs w' = f ->
             runs w (observed w (run_script w)) /\
             trace (snd (run_script w)) = trace w ++ s_events (observed w (run_script w))).
  { intros t w' evs c f Hrun Hs Htr <- <-.
    rewrite Hrun, (observed_events w t w' evs Htr). split; [exact Hs|exact Htr]. }
  destruct (fs w !! "configs") as [o|] eqn:Hc.
  2:{ destruct (makedirs_error w) as [msg|] eqn:Hm.
      - refine (Hk _ _ _ _ _ _ (RunSetupFails w msg Hc Hm) _ _ _);
          [rewrite run_script_conclude, (main_makedirs_fails w msg Hc Hm); reflexivity
          | sim_world; rewrite <- !app_assoc; reflexivity
          | reflexivity | reflexivity].
      - refine (Hk _ _ _ _ _ _ (RunSetup w Hc Hm) _ _ _);
          [rewrite run_script_conclude, (main_missing_configs w Hc Hm); reflexivity
          | sim_world; rewrite <- !app_assoc; reflexivity
          | reflexivity | reflexivity]. }
  destruct (extraction_raises w) eqn:Hx.
  { unfold extraction_raises in Hx.
    destruct (fs w !! "kcpp-extracted") eqn:Hm; [discriminate|].
    destruct (unpack_outcome w) as [msg|b] eqn:Hu; [|discriminate].
    refine (Hk _ _ _ _ _ _ (RunExtractionFails w o msg Hc Hm Hu) _ _ _);
      [rewrite run_script_conclude, (main_extraction_fails w o msg Hc Hm Hu); reflexivity
      | sim_world; rewrite <- !app_assoc; reflexivity
      | reflexivity | reflexivity]. }
  destruct (after_extraction_started w) as (Ht & Hf & Hch).
  assert (Hpl : fs (after_extraction (started w)) !! "configs" = fs w !! "configs")
    by exact (after_extraction_lookup (started w) "configs" ltac:(discriminate)).
  assert (Hps : platform_system (after_extraction (started w)) = platform_system w)
    by exact (proj1 (after_extraction_env (started w))).
  assert (Hwe : write_error (after_extraction (started w)) = write_error w)
    by apply (after_extraction_env (started w)).
  destruct o as [content|entries].
  { refine (Hk _ _ _ _ _ _ (RunNotADirectory w content Hc Hx) _ _ _).
    - rewrite run_script_conclude, (main_reaches_pipeline w _ Hc Hx),
        (pipeline_not_a_directory _ content) by (rewrite Hpl; exact Hc).
      reflexivity.
    - unfold no_input_world. sim_world. rewrite Ht, <- !app_assoc. reflexivity.
    - exact Hch.
    - exact Hf. }
  destruct (glob_result w "configs" entries) as [|p l] eqn:Hg.
  { refine (Hk _ _ _ _ _ _ (RunNoInput w entries Hc Hg Hx) _ _ _).
    - rewrite run_script_conclude, (main_reaches_pipeline w _ Hc Hx).
      rewrite (pipeline_no_input _ entries); [reflexivity|rewrite Hpl; exact Hc|].
      unfold glob_result in Hg. apply map_eq_nil in Hg.
      unfold matching, is_windows in *. rewrite Hps. exact Hg.
    - unfold no_input_world. sim_world. rewrite Ht, <- !app_assoc. reflexivity.
    - exact Hch.
    - exact Hf. }
  assert (Hne : glob_result w "configs" entries <> []) by (rewrite Hg; discriminate).
  clear Hg.
  destruct (failed_write w (extraction_fs w) "config.yaml") as [[msg f]|] eqn:Hfw.
  { refine (Hk _ _ _ _ _ _ (RunWriteFails w entries msg f Hc Hne Hx Hfw) _ _ _).
    - rewrite run_script_conclude, (main_reaches_pipeline w _ Hc Hx).
      rewrite (pipeline_write_fails _ entries msg f); [reflexivity|rewrite Hpl; exact Hc| |].
      + rewrite (glob_result_env w _ "configs" entries Hps). exact Hne.
      + unfold failed_write in *. rewrite Hf, Hwe. exact Hfw.
    - sim_world. rewrite Ht, <- !app_assoc. reflexivity.
    - exact Hch.
    - reflexivity. }
  assert (Hgen : generates w entries).
  { repeat split; try assumption. apply failed_write_extraction. exact Hfw. }
  destruct (generated_summary w entries) as (Hgt & Hgf & Hgc).
  destruct (generated_executable w entries) as [He Hl].
  destruct (generated_env w entries) as (_ & _ & Hpe & Hev).
  destruct (fs w !! llama_swap_executable w) as [x|] eqn:Hexe.
  2:{ refine (Hk _ _ _ _ _ _ (RunNoProxy w entries Hgen Hexe) _ _ _).
      - rewrite run_script_conclude, (main_generates w entries Hgen). unfold supervision.
        rewrite (bind_Ret _ _ _ _ _
                   (launch_absent (generated w entries) ltac:(rewrite He, Hl; reflexivity))).
        reflexivity.
      - sim_world. rewrite Hgt, He, <- !app_assoc. reflexivity.
      - exact Hgc.
      - exact Hgf. }
  destruct (popen_error w) as [msg|] eqn:Hp.
  { refine (Hk _ _ _ _ _ _ (RunSpawnFails w entries x msg Hgen Hexe Hp) _ _ _).
    - rewrite run_script_conclude, (main_generates w entries Hgen). unfold supervision.
      rewrite (bind_Ret _ _ _ _ _
                 (launch_spawn_error (generated w entries) x msg
                    ltac:(rewrite He, Hl; reflexivity) ltac:(rewrite Hpe; reflexivity))).
      reflexivity.
    - unfold launching_world, launch_events. sim_world.
      rewrite Hgt, He, <- !app_assoc. reflexivity.
    - exact Hgc.
    - exact Hgf. }
  destruct (supervise_conclude (launched w entries) (PopenObj [llama_swap_executable w])
              eq_refl) as (w' & Hcon & Htr & Hchild & Hfs).
  assert (Hwev : wait_events (launched w entries) = wait_events w)
    by apply (launched_state w entries).
  rewrite Hwev in *.
  refine (Hk _ _ _ _ _ _ (RunSupervised w entries x Hgen Hexe Hp) _ _ _).
  - rewrite run_script_conclude, (main_launches w entries x Hgen Hexe Hp). exact Hcon.
  - rewrite Htr. unfold launched, launching_world, launch_events. sim_world.
    rewrite Hgt, He, <- !app_assoc. reflexivity.
  - exact Hchild.
  - rewrite Hfs. exact Hgf.
Qed.

Lemma run_script_cases (w : world) :
  exists s,
    runs w s /\
    final_status w = s_status s /\
    events_of_run w = s_events s /\
    child (final_world w) = s_child s /\
    fs (final_world w) = s_fs s /\
    trace (final_world w) = trace w ++ s_events s.
Proof.
  destruct (run_script_runs w) as [Hruns Htr].
  exists (observed w (run_script w)). repeat split; assumption.
Qed.

Lemma supervise_summary_exit (events : list wait_event) (n : Z) :
  fst (fst (supervise_summary events)) = ExitStatus n ->
  n = 0%Z /\ snd (fst (supervise_summary events)) = ChildExited.
Proof.
  destruct events as [|[|[|]] [|[|[|]] rest]]; cbn; intros H;
    try discriminate H; injection H as <-; split; reflexivity.
Qed.

Lemma supervise_summary_blocked (events : list wait_event) :
  fst (fst (supervise_summary events)) = NeverExits ->
  snd (fst (supervise_summary events)) = ChildRunning.
Proof.
  destruct events as [|[|[|]] [|[|[|]] rest]]; cbn; intros H;
    try discriminate H; reflexivity.
Qed.

Lemma generates_write_ok (w : world) (entries : list dirent) :
  generates w entries -> write_fails w "config.yaml" = false.
Proof. intros (_ & _ & _ & H). exact H. Qed.

Lemma failed_write_extraction_fails (w : world) (msg : string) (f : gmap string fs_object) :
  failed_write w (extraction_fs w) "config.yaml" = Some (msg, f) ->
  write_fails w "config.yaml" = true.
Proof.
  intros H. destruct (write_fails w "config.yaml") eqn:E; [reflexivity|].
  apply failed_write_extraction in E. congruence.
Qed.

Ltac run_cases w Htr :=
  let s := fresh "s" in
  let Hruns := fresh "Hruns" in
  let Hst := fresh "Hst" in
  let Hev := fresh "Hev" in
  let Hch := fresh "Hch" in
  let Hfs := fresh "Hfs" in
  destruct (run_script_cases w) as (s & Hruns & Hst & Hev & Hch & Hfs & Htr);
  destruct Hruns; cbn [s_status s_events s_child s_fs] in Hst, Hev, Hch, Hfs, Htr;
  rewrite ?Hst, ?Hev, ?Hch, ?Hfs.

(** X13: the exit status is 1 in exactly three situations: the configs folder
    is missing, the extraction step raises, or something was discovered and
    the write fails; no run exits with a status other than 0 or 1. *)
Theorem exit_status_one_iff (w : world) :
  (final_status w = ExitStatus 1 <->
   fs w !! "configs" = None \/
   extraction_raises w = true \/
   exists entries,
     fs w !! "configs" = Some (Directory entries) /\
     glob_result w "configs" entries <> [] /\
     write_fails w "config.yaml" = true) /\
  (forall n, final_status w = ExitStatus n -> n = 0%Z \/ n = 1%Z).
Proof.
  run_cases w Htr.
  - split; [tauto|intros n E; injection E as <-; auto].
  - split; [tauto|intros n E; injection E as <-; auto].
  - split; [|intros n E; injection E as <-; auto]. split; [intros _|reflexivity].
    right. left. unfold extraction_raises.
    match goal with
    | Hk : fs w !! "kcpp-extracted" = None, Hu : unpack_outcome w = _ |- _ =>
        rewrite Hk, Hu
    end. reflexivity.
  - split; [|intros n E; injection E as <-; auto].
    split; [discriminate|].
    intros [E|[E|(es & E & _)]]; congruence.
  - split; [|intros n E; injection E as <-; auto].
    split; [discriminate|].
    intros [E|[E|(es & E & Hne & _)]]; congruence.
  - split; [|intros n E; injection E as <-; auto]. split; [intros _|reflexivity].
    right. right. eexists. repeat split; eauto using failed_write_extraction_fails.
  - match goal with H : generates w _ |- _ => destruct H as (Hc & Hg & Hx & Hw) end.
    split; [|intros n E; injection E as <-; auto].
    split; [discriminate|]. intros [E|[E|(es & _ & _ & E)]]; congruence.
  - match goal with H : generates w _ |- _ => destruct H as (Hc & Hg & Hx & Hw) end.
    split; [|intros n E; injection E as <-; auto].
    split; [discriminate|]. intros [E|[E|(es & _ & _ & E)]]; congruence.
  - match goal with H : generates w _ |- _ => destruct H as (Hc & Hg & Hx & Hw) end.
    split.
    + split.
      * intros E. apply supervise_summary_exit in E as [E _]. discriminate E.
      * intros [E|[E|(es & _ & _ & E)]]; congruence.
    + intros n E. apply supervise_summary_exit in E as [-> _]. auto.
Qed.

Lemma in_opening_events (w : world) (e : event) :
  In e (opening_events w) <->
  e = EvPrint "Kobold Swap" \/ (e = EvRun unpack_argv /\ fs w !! "kcpp-extracted" = None).
Proof.
  unfold opening_events, extraction_events.
  destruct (fs w !! "kcpp-extracted"); simpl; intuition congruence.
Qed.

Lemma in_generation_events (w : world) (e : event) :
  In e (generation_events w) <->
  In e (opening_events w) \/ e = EvOpenW "config.yaml" \/
  e = EvPrint "Successfully generated config.yaml" \/
  e = EvPrint "Config generation completed successfully!".
Proof.
  unfold generation_events. rewrite in_app_iff. simpl. intuition congruence.
Qed.

Lemma in_supervise_events (events : list wait_event) (e : event) :
  In e (snd (supervise_summary events)) ->
  e = EvWait \/ e = EvPrint shutdown_message \/
  (e = EvTerminate /\ exists b rest, events = WInterrupt b :: rest) \/
  e = EvStderr (traceback KeyboardInterrupt).
Proof.
  destruct events as [|[|[|]] [|[|[|]] rest]]; cbn; intuition eauto.
Qed.

Lemma in_supervise_terminate (b : bool) (rest : list wait_event) :
  In EvTerminate (snd (supervise_summary (WInterrupt b :: rest))).
Proof.
  destruct b; [|destruct rest as [|[|[|]] rest']]; cbn; auto.
Qed.

Ltac split_in H :=
  repeat first
    [ apply in_app_iff in H as [H|H]
    | apply in_generation_events in H as [H|[H|[H|H]]]
    | apply in_opening_events in H as [H|[H ?]]
    | apply in_supervise_events in H as [H|[H|[[H ?]|H]]]
    | destruct H as [H|H] ];
  try discriminate H; try contradiction.

(** X14: the extraction step is run only with the arguments
    [--unpack kcpp-extracted], and exactly when the configs folder exists and
    the directory [kcpp-extracted] does not. *)
Theorem extraction_run_iff (w : world) (argv : list string) :
  In (EvRun argv) (events_of_run w) <->
  argv = unpack_argv /\ is_Some (fs w !! "configs") /\ fs w !! "kcpp-extracted" = None.
Proof.
  assert (Hgen : forall entries, generates w entries -> is_Some (fs w !! "configs")).
  { intros entries (Hc & _). rewrite Hc. eauto. }
  run_cases w Htr; split;
    try (intros Hin; split_in Hin;
         first [injection Hin as <- | injection Hin as ->];
         repeat split; eauto;
         match goal with H : fs w !! "configs" = Some _ |- _ => rewrite H; eauto end);
    try (intros (-> & [x Hx] & Hk); congruence).
  all: intros (-> & _ & Hk);
    repeat (rewrite ?in_app_iff, ?in_generation_events, ?in_opening_events);
    simpl; auto 10.
Qed.

(** X16: the only file a run ever opens for writing is [config.yaml], and it
    does so exactly when the extraction step did not raise and discovery found
    at least one entry. *)
Theorem opens_only_config_yaml (w : world) (path : string) :
  In (EvOpenW path) (events_of_run w) <->
  path = "config.yaml" /\
  extraction_raises w = false /\
  exists entries,
    fs w !! "configs" = Some (Directory entries) /\
    glob_result w "configs" entries <> [].
Proof.
  assert (Hraise : forall msg, fs w !! "kcpp-extracted" = None ->
                               unpack_outcome w = RunRaises msg ->
                               extraction_raises w = true).
  { intros msg Hk Hu. unfold extraction_raises. rewrite Hk, Hu. reflexivity. }
  run_cases w Htr; split;
    try (intros Hin; split_in Hin; injection Hin as <-;
         repeat match goal with H : generates w _ |- _ => destruct H as (? & ? & ? & ?) end;
         repeat split; eauto; fail);
    try (intros (-> & Hx & es & Hc & Hne);
         repeat match goal with H : generates w _ |- _ => destruct H as (? & ? & ? & ?) end;
         first [ congruence
               | erewrite Hraise in Hx by eassumption; discriminate Hx
               | repeat (rewrite ?in_app_iff, ?in_generation_events, ?in_opening_events);
                 simpl; auto 10 ]).
Qed.

(** X17: the proxy is the only thing a run ever spawns, once and without
    arguments, and only after it has written [config.yaml]: a run that spawns
    it discovered something, found the executable in place, opened the output
    file before the spawn, and leaves the dump of the mapping in it. *)
Theorem spawns_only_after_write (w : world) (argv : list string) :
  In (EvPopen argv) (events_of_run w) ->
  argv = [llama_swap_executable w] /\
  is_Some (fs w !! llama_swap_executable w) /\
  exists entries pre post,
    generates w entries /\
    events_of_run w = pre ++ EvPopen argv :: post /\
    In (EvOpenW "config.yaml") pre /\
    (forall a, ~ In (EvPopen a) pre /\ ~ In (EvPopen a) post) /\
    file_content "config.yaml" (final_world w) =
      Some (yaml_dump w (build_config (glob_result w "configs" entries))).
Proof.
  assert (Hfile : forall entries,
             fs (final_world w) = generated_fs w entries ->
             file_content "config.yaml" (final_world w) =
             Some (yaml_dump w (build_config (glob_result w "configs" entries)))).
  { intros entries E. unfold file_content. rewrite E. unfold generated_fs.
    rewrite lookup_insert_eq. reflexivity. }
  run_cases w Htr; intros Hin; split_in Hin; injection Hin as <-.
  - split; [reflexivity|]. split; [eauto|].
    exists entries,
      (generation_events w ++ [EvPrint ("Launching " ++ llama_swap_executable w ++ "...")]),
      [EvPrint ("Error launching llama-swap: " ++ msg)].
    split; [assumption|]. split; [unfold launch_events; rewrite <- app_assoc; reflexivity|].
    split; [rewrite in_app_iff, in_generation_events; auto|].
    split; [|apply Hfile; assumption].
    intros a. split; intros Hin; split_in Hin.
  - split; [reflexivity|]. split; [eauto|].
    exists entries,
      (generation_events w ++ [EvPrint ("Launching " ++ llama_swap_executable w ++ "...")]),
      (EvPrint "llama-swap launched successfully!" ::
       snd (supervise_summary (wait_events w))).
    split; [assumption|]. split; [unfold launch_events; rewrite <- app_assoc; reflexivity|].
    split; [rewrite in_app_iff, in_generation_events; auto|].
    split; [|apply Hfile; assumption].
    intros a. split; intros Hin; split_in Hin.
Qed.

(** X11: the child is asked to terminate only in a run that started it and
    whose first wait was interrupted, and in every such run. *)
Theorem terminate_iff_interrupted (w : world) :
  In EvTerminate (events_of_run w) <->
  exists entries o b rest,
    generates w entries /\
    fs w !! llama_swap_executable w = Some o /\
    popen_error w = None /\
    wait_events w = WInterrupt b :: rest.
Proof.
  run_cases w Htr; split;
    try (intros Hin; split_in Hin; fail);
    try (intros (es & x & b & rest & Hg & Hexe & Hp & Hw);
         repeat match goal with H : generates w _ |- _ => destruct H as (? & ? & ? & ?) end;
         first [ congruence
               | match goal with
                 | Hk : fs w !! "kcpp-extracted" = None, Hu : unpack_outcome w = RunRaises _,
                   Hx : extraction_raises w = false |- _ =>
                     unfold extraction_raises in Hx; rewrite Hk, Hu in Hx; discriminate Hx
                 end
               | match goal with
                 | Hf : failed_write w (extraction_fs w) "config.yaml" = Some _ |- _ =>
                     apply failed_write_extraction_fails in Hf; congruence
                 end ]).
  - intros Hin. split_in Hin.
    match goal with H : exists b rest, _ |- _ => destruct H as (b & rest & Hw) end.
    exists entries, o, b, rest. auto.
  - intros (es & x & b & rest & Hg & Hexe & Hp & Hw). rewrite Hw.
    rewrite !in_app_iff. right. right. right. apply in_supervise_terminate.
Qed.

(** X12: a run never exits with a status while its child is running: when it
    exits, there is no running child, and when it blocks for ever, it is
    because the child it waits for keeps running. *)
Theorem exit_leaves_no_running_child (w : world) :
  child w <> ChildRunning ->
  (forall n, final_status w = ExitStatus n -> child (final_world w) <> ChildRunning) /\
  (final_status w = NeverExits ->
   child (final_world w) = ChildRunning /\ In EvWait (events_of_run w)).
Proof.
  intros Hchild.
  run_cases w Htr; (split; [intros n E|intros E]); try assumption; try discriminate E.
  - apply supervise_summary_exit in E as [_ ->]. discriminate.
  - split; [apply supervise_summary_blocked; exact E|].
    rewrite !in_app_iff. right. right. right.
    destruct (wait_events w) as [|[|[|]] [|[|[|]] rest]]; cbn; auto; discriminate E.
Qed.

Lemma no_extraction_fs (w : world) :
  (forall argv, ~ In (EvRun argv) (opening_events w)) ->
  extraction_fs w = fs w.
Proof.
  intros H. unfold extraction_fs. unfold opening_events, extraction_events in H.
  destruct (fs w !! "kcpp-extracted"); [reflexivity|].
  exfalso. apply (H unpack_argv). right. left. reflexivity.
Qed.

(** X18: what the script itself writes.  In a run that starts no other
    program (the extraction step is not due and the proxy is not spawned) at
    most two paths change: [configs], which changes only by being created
    empty when it was missing, and [config.yaml], which changes only by being
    opened for writing.  Every other path is left as it was. *)
Theorem script_writes_two_paths (w : world) (path : string) :
  (forall argv, ~ In (EvRun argv) (events_of_run w)) ->
  (forall argv, ~ In (EvPopen argv) (events_of_run w)) ->
  (path <> "configs" -> path <> "config.yaml" ->
   fs (final_world w) !! path = fs w !! path) /\
  (fs (final_world w) !! "configs" <> fs w !! "configs" ->
   fs w !! "configs" = None /\
   fs (final_world w) !! "configs" = Some (Directory []) /\
   In (EvMakedirs "configs") (events_of_run w)) /\
  (fs (final_world w) !! "config.yaml" <> fs w !! "config.yaml" ->
   In (EvOpenW "config.yaml") (events_of_run w)).
Proof.
  intros Hrun Hpopen.
  assert (Hopen : forall rest,
             events_of_run w = opening_events w ++ rest -> extraction_fs w = fs w).
  { intros rest E. apply no_extraction_fs. intros argv Hin.
    apply (Hrun argv). rewrite E. apply in_or_app. left. exact Hin. }
  assert (Hgen : forall rest,
             events_of_run w = generation_events w ++ rest -> extraction_fs w = fs w).
  { intros rest E. apply (Hopen (skipn (length (opening_events w)) (events_of_run w))).
    rewrite E. unfold generation_events. rewrite <- app_assoc, skipn_app_exact.
    reflexivity. }
  destruct (run_script_cases w) as (s & Hruns & Hst & Hev & Hch & Hfs & Htr).
  destruct Hruns; cbn [s_status s_events s_child s_fs] in Hst, Hev, Hch, Hfs, Htr.
  - (* the configs folder is created *)
    rewrite Hfs, Hev. split; [|split].
    + intros Hp _. apply lookup_insert_ne. congruence.
    + intros _. split; [assumption|]. split; [apply lookup_insert_eq|].
      unfold setup_events. cbn. auto.
    + intros Hne. contradiction Hne. apply lookup_insert_ne. discriminate.
  - (* creating it fails *)
    rewrite Hfs. split; [|split]; [reflexivity|intros Hne; contradiction Hne; reflexivity..].
  - (* the extraction step raises *)
    exfalso. apply (Hrun unpack_argv). rewrite Hev. right. left. reflexivity.
  - (* configs is not a directory *)
    rewrite Hfs, (Hopen _ Hev).
    split; [|split]; [reflexivity|intros Hne; contradiction Hne; reflexivity..].
  - (* nothing discovered *)
    rewrite Hfs, (Hopen _ Hev).
    split; [|split]; [reflexivity|intros Hne; contradiction Hne; reflexivity..].
  - (* the write fails *)
    rewrite Hfs, Hev. rename H2 into Hfw. rewrite (Hopen _ Hev) in Hfw.
    assert (Hother : forall p, p <> "config.yaml" -> f !! p = fs w !! p).
    { intros p Hp. unfold failed_write in Hfw.
      destruct (fs w !! "config.yaml") as [[c|es]|];
        try destruct (write_error w) as [[m|m wr]|]; try discriminate Hfw;
        injection Hfw as _ <-; rewrite ?lookup_insert_ne by congruence; reflexivity. }
    split; [|split].
    + intros _ Hp. apply Hother. exact Hp.
    + intros Hne. contradiction Hne. apply Hother. discriminate.
    + intros _. apply in_or_app. right. left. reflexivity.
  - (* written, no proxy *)
    rewrite Hfs, Hev. unfold generated_fs. rewrite (Hgen _ Hev).
    split; [|split].
    + intros _ Hp. apply lookup_insert_ne. congruence.
    + intros Hne. contradiction Hne. apply lookup_insert_ne. discriminate.
    + intros _. apply in_or_app. left. unfold generation_events.
      apply in_or_app. right. left. reflexivity.
  - (* the spawn fails *)
    exfalso. apply (Hpopen [llama_swap_executable w]). rewrite Hev.
    apply in_or_app. right. apply in_or_app. left. right. left. reflexivity.
  - (* the proxy runs *)
    exfalso. apply (Hpopen [llama_swap_executable w]). rewrite Hev.
    apply in_or_app. right. apply in_or_app. left. right. left. reflexivity.
Qed.

(** ** Identifiers and the files they come from *)

Lemma endswith_split (s suf : string) :
  Str.endswith s suf = true -> exists p, s = (p ++ suf)%string.
Proof.
  induction s as [|c s IH]; rewrite endswith_unfold.
  - destruct (String.eqb_spec EmptyString suf) as [<-|Hne]; [|discriminate].
    intros _. exists EmptyString. reflexivity.
  - destruct (String.eqb_spec (String c s) suf) as [<-|Hne].
    + intros _. exists EmptyString. reflexivity.
    + intros H. destruct (IH H) as [p ->]. exists (String c p). reflexivity.
Qed.

Lemma rfind_app (x y : string) (c : ascii) (i : nat) :
  Str.rfind y c = Some i -> Str.rfind (x ++ y) c = Some (String.length x + i)%nat.
Proof.
  intros H. induction x as [|a x IH]; [exact H|].
  change (Str.rfind (String a (x ++ y)) c = Some (S (String.length x + i))).
  cbn [Str.rfind]. rewrite IH. reflexivity.
Qed.

Lemma length_append (x y : string) :
  String.length (x ++ y) = (String.length x + String.length y)%nat.
Proof.
  induction x as [|a x IH]; [reflexivity|].
  change (S (String.length (x ++ y)) = S (String.length x + String.length y)).
  rewrite IH. reflexivity.
Qed.

Lemma slice_to_app (x y : string) : Str.slice_to (x ++ y) (String.length x) = x.
Proof.
  unfold Str.slice_to. induction x as [|a x IH]; [destruct y; reflexivity|].
  change (String a (substring 0 (String.length x) (x ++ y)) = String a x).
  rewrite IH. reflexivity.
Qed.

(** The stem of a name [x.kcpps]: [x], unless [x] is empty. *)
Lemma stem_of_kcpps (dir x : string) :
  Path_stem [dir; (x ++ ".kcpps")%string] =
  match x with
  | EmptyString => ".kcpps"
  | String _ _ => x
  end.
Proof.
  unfold Path_stem, Path_name. cbn [List.last].
  rewrite (rfind_app x ".kcpps" "."%char 0 eq_refl), length_append, Nat.add_0_r.
  destruct x as [|a x]; [reflexivity|].
  replace ((0 <? String.length (String a x))%nat) with true by reflexivity.
  replace ((String.length (String a x) <? String.length (String a x) + String.length ".kcpps" - 1)%nat)
    with true.
  - apply slice_to_app.
  - symmetry. apply Nat.ltb_lt. cbn [String.length]. lia.
Qed.

(** X2: a discovered file is found again through its identifier: for a name
    that ends in [.kcpps] and is not just [.kcpps], the identifier followed by
    [.kcpps] is the name, so the [--config] path of the command is the path of
    the file itself. *)
Theorem identifier_names_its_file (dir name : string) :
  Str.endswith name ".kcpps" = true ->
  name <> ".kcpps" ->
  (extract_filename [dir; name] ++ ".kcpps")%string = name /\
  cmd_of (extract_filename [dir; name]) =
    ("kcpp-extracted/koboldcpp-launcher --config configs/" ++ name ++
     " --port ${PORT} --hordemodelname " ++ extract_filename [dir; name])%string.
Proof.
  intros Hend Hne. destruct (endswith_split _ _ Hend) as [x ->].
  unfold extract_filename. rewrite stem_of_kcpps.
  destruct x as [|a x]; [contradiction Hne; reflexivity|].
  split; [reflexivity|].
  unfold cmd_of, cmd_prefix, cmd_middle.
  change (".kcpps --port ${PORT} --hordemodelname " ++ String a x)%string
    with (".kcpps" ++ (" --port ${PORT} --hordemodelname " ++ String a x))%string.
  rewrite <- (append_assoc (String a x) ".kcpps"). reflexivity.
Qed.

Lemma stem_injective (dir a b : string) :
  Str.endswith a ".kcpps" = true -> Str.endswith b ".kcpps" = true ->
  a <> ".kcpps" -> b <> ".kcpps" ->
  extract_filename [dir; a] = extract_filename [dir; b] -> a = b.
Proof.
  intros Ha Hb Hna Hnb E.
  destruct (endswith_split _ _ Ha) as [x ->]. destruct (endswith_split _ _ Hb) as [y ->].
  unfold extract_filename in E. rewrite !stem_of_kcpps in E.
  destruct x; [contradiction Hna; reflexivity|].
  destruct y; [contradiction Hnb; reflexivity|].
  rewrite E. reflexivity.
Qed.

(** X3: on a platform that matches names with their case, a folder whose
    entries have pairwise distinct names, none of them just [.kcpps], gives
    pairwise distinct identifiers: the mapping has exactly one entry per
    discovered entry, in discovery order. *)
Theorem distinct_names_distinct_entries (w : world) (dir : string)
        (entries : list dirent) :
  is_windows w = false ->
  NoDup (map dirent_name entries) ->
  ~ In ".kcpps" (map dirent_name entries) ->
  NoDup (map extract_filename (glob_result w dir entries)) /\
  build_models (glob_result w dir entries) =
    map (fun p => (key_of (extract_filename p), entry_of (extract_filename p)))
        (glob_result w dir entries) /\
  length (build_models (glob_result w dir entries)) =
    length (List.filter (matching w) entries).
Proof.
  intros Hwin Hnd Hhidden.
  assert (Hids : NoDup (map extract_filename (glob_result w dir entries))).
  { unfold glob_result. rewrite map_map.
    induction entries as [|e l IH]; [constructor|].
    cbn [map] in Hnd, Hhidden. apply NoDup_cons in Hnd as [He Hnd].
    cbn [List.filter].
    assert (IH' := IH Hnd (fun H => Hhidden (or_intror H))).
    destruct (matching w e) eqn:Hm; [|exact IH'].
    cbn [map]. apply NoDup_cons. split; [|exact IH'].
    intros Hin. apply list_elem_of_In, in_map_iff in Hin as (e' & Heq & Hin').
    apply filter_In in Hin' as [Hin' Hm'].
    apply He. apply list_elem_of_In.
    unfold matching, fnmatch_star in Hm, Hm'. rewrite Hwin in Hm, Hm'.
    unfold Path_div in Heq. cbn [app] in Heq.
    rewrite <- (stem_injective dir (dirent_name e') (dirent_name e) Hm' Hm).
    - apply in_map. exact Hin'.
    - intros E. apply Hhidden. right. rewrite <- E. apply in_map. exact Hin'.
    - intros E. apply Hhidden. left. exact E.
    - exact Heq. }
  split; [exact Hids|].
  rewrite (build_models_distinct _ Hids).
  split; [reflexivity|]. unfold glob_result. rewrite !length_map. reflexivity.
Qed.

(** ** The mapping, duplicates included *)

Lemma dict_get_setitem_eq {V : Type} (d : dict V) (k : string) (v : V) :
  dict_get (dict_setitem d k v) k = Some v.
Proof.
  induction d as [|[k' v'] d IH]; cbn [dict_setitem dict_get].
  - rewrite String.eqb_refl. reflexivity.
  - destruct (String.eqb k' k) eqn:E; cbn [dict_get]; rewrite E; [reflexivity|exact IH].
Qed.

Lemma dict_get_setitem_ne {V : Type} (d : dict V) (k k0 : string) (v : V) :
  k <> k0 -> dict_get (dict_setitem d k v) k0 = dict_get d k0.
Proof.
  intros Hne. induction d as [|[k' v'] d IH]; cbn [dict_setitem dict_get].
  - apply String.eqb_neq in Hne. rewrite Hne. reflexivity.
  - destruct (String.eqb_spec k' k) as [->|Hk]; cbn [dict_get].
    + apply String.eqb_neq in Hne. rewrite Hne. reflexivity.
    + destruct (String.eqb k' k0); [reflexivity|exact IH].
Qed.

Lemma dict_setitem_keys_nodup {V : Type} (d : dict V) (k : string) (v : V) :
  NoDup (dict_keys d) -> NoDup (dict_keys (dict_setitem d k v)).
Proof.
  intros Hnd. destruct (in_dec string_dec k (dict_keys d)) as [Hin|Hout].
  - rewrite dict_setitem_keys by exact Hin. exact Hnd.
  - rewrite dict_setitem_fresh by exact Hout. unfold dict_keys. rewrite map_app.
    apply NoDup_app. split; [exact Hnd|]. split; [|apply NoDup_singleton].
    intros x Hx Hk. apply list_elem_of_In in Hx.
    apply list_elem_of_In in Hk as [<-|[]]. exact (Hout Hx).
Qed.

Lemma dict_get_In {V : Type} (d : dict V) (k : string) (v : V) :
  dict_get d k = Some v -> In (k, v) d.
Proof.
  induction d as [|[k' v'] d IH]; cbn [dict_get]; [discriminate|].
  destruct (String.eqb_spec k' k) as [->|Hne].
  - intros H. injection H as <-. left. reflexivity.
  - intros H. right. exact (IH H).
Qed.

(** Setting a key to the value its first occurrence already has changes
    nothing. *)
Lemma dict_setitem_same {V : Type} (d : dict V) (k : string) (v : V) :
  dict_get d k = Some v -> dict_setitem d k v = d.
Proof.
  induction d as [|[k' v'] d IH]; cbn [dict_get dict_setitem]; [discriminate|].
  destruct (String.eqb_spec k' k) as [->|Hne].
  - intros H. injection H as <-. reflexivity.
  - intros H. rewrite (IH H). reflexivity.
Qed.

Lemma fold_add_file_get (kcpps_files : list Path) (acc : models_dict) (id : string) :
  (dict_get acc (key_of id) = Some (entry_of id) \/
   In id (map extract_filename kcpps_files)) ->
  dict_get (fold_left add_file kcpps_files acc) (key_of id) = Some (entry_of id).
Proof.
  revert acc. induction kcpps_files as [|p l IH]; cbn [fold_left map]; intros acc H.
  - destruct H as [H|[]]. exact H.
  - apply IH. unfold add_file.
    destruct (string_dec (extract_filename p) id) as [->|Hne].
    + left. apply dict_get_setitem_eq.
    + destruct H as [H|[H|H]]; [left|contradiction|right; exact H].
      rewrite dict_get_setitem_ne; [exact H|].
      intros E. apply Hne, key_of_inj, E.
Qed.

Lemma fold_add_file_keys_nodup (kcpps_files : list Path) (acc : models_dict) :
  NoDup (dict_keys acc) -> NoDup (dict_keys (fold_left add_file kcpps_files acc)).
Proof.
  revert acc. induction kcpps_files as [|p l IH]; cbn [fold_left]; intros acc H; [exact H|].
  apply IH. unfold add_file. apply dict_setitem_keys_nodup. exact H.
Qed.

(** X4: whatever the identifiers, the keys of the mapping are pairwise
    distinct, every discovered file finds the entry of its identifier under
    its key, every entry is the entry of the identifier of some discovered
    file, and there are never more entries than files. *)
Theorem mapping_keys_and_entries (kcpps_files : list Path) :
  NoDup (dict_keys (build_models kcpps_files)) /\
  (forall p, In p kcpps_files ->
             dict_get (build_models kcpps_files) (key_of (extract_filename p)) =
             Some (entry_of (extract_filename p))) /\
  (forall k e, dict_get (build_models kcpps_files) k = Some e ->
               exists p, In p kcpps_files /\
                         k = key_of (extract_filename p) /\
                         e = entry_of (extract_filename p)) /\
  (length (build_models kcpps_files) <= length kcpps_files)%nat.
Proof.
  rewrite build_models_fold. split; [|split; [|split]].
  - apply fold_add_file_keys_nodup. constructor.
  - intros p Hp. apply fold_add_file_get. right. apply in_map. exact Hp.
  - intros k e H. apply dict_get_In in H.
    destruct (fold_add_file_items _ _ _ H) as [[]|(p & Hp & E)].
    injection E as -> ->. eauto.
  - apply (fold_add_file_length kcpps_files []).
Qed.

(** X5: a file whose identifier was already seen adds nothing and moves
    nothing: the mapping is the one built without it. *)
Theorem repeated_identifier_changes_nothing (before after : list Path) (p : Path) :
  In (extract_filename p) (map extract_filename before) ->
  build_models (before ++ p :: after) = build_models (before ++ after).
Proof.
  intros Hin. rewrite !build_models_fold, !fold_left_app. cbn [fold_left].
  f_equal. unfold add_file at 1. apply dict_setitem_same.
  apply fold_add_file_get. right. exact Hin.
Qed.

(** ** Discovery, synthesis and launch as functions *)




(** X6: the synthesis touches no path but the output file, and not even that
    one when the list is empty or [open] fails; it never starts, stops or
    waits for a child. *)
Theorem synthesis_touches_only_output (kcpps_files : list Path) (output_file : string)
        (w : world) :
  (forall path, path <> output_file ->
                fs (world_of (generate_config_yaml kcpps_files output_file w)) !! path =
                fs w !! path) /\
  (kcpps_files = [] \/ (exists msg, write_error w = Some (OpenFails msg)) ->
   fs (world_of (generate_config_yaml kcpps_files output_file w)) = fs w) /\
  child (world_of (generate_config_yaml kcpps_files output_file w)) = child w /\
  wait_events (world_of (generate_config_yaml kcpps_files output_file w)) = wait_events w.
Proof.
  destruct kcpps_files as [|p l].
  - repeat split.
  - unfold generate_config_yaml, try_except, bind, open_and_dump, print, ret.
    cbn [is_empty].
    destruct (fs w !! output_file) as [[c|es]|] eqn:Hout;
      try destruct (write_error w) as [[msg|msg wr]|] eqn:Hwe;
      cbn [is_Exception world_of]; sim_world;
      (split; [intros path Hp; rewrite ?lookup_insert_ne by congruence; reflexivity|]);
      (split; [|split; reflexivity]);
      intros [E|[m E]]; try discriminate E; reflexivity.
Qed.


(** ** Particular runs *)

(** X15: when the directory [kcpp-extracted] is missing and the extraction
    executable cannot be started, the run ends there with a traceback and
    status 1: whatever the configs folder holds, nothing is discovered,
    written or launched, and no file changes. *)
Theorem extraction_failure_aborts (w : world) (o : fs_object) (msg : string) :
  fs w !! "configs" = Some o ->
  fs w !! "kcpp-extracted" = None ->
  unpack_outcome w = RunRaises msg ->
  final_status w = ExitStatus 1 /\
  events_of_run w =
    [EvPrint "Kobold Swap"; EvRun unpack_argv; EvStderr (traceback (PyError msg))] /\
  fs (final_world w) = fs w /\
  child (final_world w) = child w.
Proof.
  intros Hc Hk Hu.
  assert (Hrun : run_script w =
                 (ExitStatus 1,
                  log (EvStderr (traceback (PyError msg)))
                      (log (EvRun unpack_argv) (started w)))).
  { rewrite run_script_conclude, (main_extraction_fails w o msg Hc Hk Hu). reflexivity. }
  unfold final_status, final_world, events_of_run. rewrite Hrun.
  rewrite (observed_events w _ _ [EvPrint "Kobold Swap"; EvRun unpack_argv;
                                  EvStderr (traceback (PyError msg))]).
  - repeat split.
  - sim_world. rewrite <- !app_assoc. reflexivity.
Qed.

(** X19: when [configs] exists but is not a directory, the run treats it like
    an empty folder: it warns that no file was found, exits with status 0, and
    neither opens nor changes the output file. *)
Theorem configs_not_a_directory (w : world) (content : string) :
  fs w !! "configs" = Some (RegularFile content) ->
  extraction_raises w = false ->
  final_status w = ExitStatus 0 /\
  events_of_run w =
    opening_events w ++
    [EvPrint (no_files_warning "configs"); EvPrint "No .kcpps files found. Exiting."] /\
  fs (final_world w) !! "config.yaml" = fs w !! "config.yaml" /\
  fs (final_world w) !! "configs" = Some (RegularFile content).
Proof.
  intros Hc Hx.
  destruct (after_extraction_started w) as (Ht & Hf & Hch).
  assert (Hrun : run_script w = (ExitStatus 0, no_input_world (after_extraction (started w)))).
  { rewrite run_script_conclude, (main_reaches_pipeline w _ Hc Hx).
    rewrite (pipeline_not_a_directory _ content); [reflexivity|].
    rewrite (after_extraction_lookup (started w) "configs") by discriminate. exact Hc. }
  unfold final_status, final_world, events_of_run. rewrite Hrun.
  rewrite (observed_events w _ _
             (opening_events w ++
              [EvPrint (no_files_warning "configs");
               EvPrint "No .kcpps files found. Exiting."])).
  - cbn [fst snd s_events]. unfold no_input_world. sim_world. rewrite Hf.
    rewrite !extraction_fs_lookup by discriminate. repeat split. exact Hc.
  - unfold no_input_world. sim_world. rewrite Ht, <- !app_assoc. reflexivity.
Qed.

(** X10: when the proxy was started and exits on its own, the run ends with
    status 0 after a single wait: the child is never asked to terminate and no
    shutdown message is printed. *)
Theorem child_exit_ends_run (w : world) (entries : list dirent) (o : fs_object)
        (rest : list wait_event) :
  generates w entries ->
  fs w !! llama_swap_executable w = Some o ->
  popen_error w = None ->
  wait_events w = WChildExits :: rest ->
  final_status w = ExitStatus 0 /\
  child (final_world w) = ChildExited /\
  events_of_run w =
    generation_events w ++ launch_events w ++
    [EvPrint "llama-swap launched successfully!"; EvWait] /\
  ~ In EvTerminate (events_of_run w) /\
  ~ In (EvPrint shutdown_message) (events_of_run w).
Proof.
  intros Hg Hexe Hp Hw.
  destruct (generated_summary w entries) as (Hgt & Hgf & Hgc).
  destruct (generated_executable w entries) as [He Hl].
  destruct (supervise_conclude (launched w entries) (PopenObj [llama_swap_executable w])
              eq_refl) as (w' & Hcon & Htr & Hchild & Hfs).
  rewrite (proj1 (proj2 (launched_state w entries))), Hw in Hcon, Htr, Hchild.
  cbn [supervise_summary fst snd] in Hcon, Htr, Hchild.
  assert (Hrun : run_script w = (ExitStatus 0, w')).
  { rewrite run_script_conclude, (main_launches w entries o Hg Hexe Hp). exact Hcon. }
  assert (Hev : trace w' = trace w ++ generation_events w ++ launch_events w ++
                           [EvPrint "llama-swap launched successfully!"; EvWait]).
  { rewrite Htr. unfold launched, launching_world, launch_events. sim_world.
    rewrite Hgt, He, <- !app_assoc. reflexivity. }
  unfold final_status, final_world, events_of_run. rewrite Hrun.
  rewrite (observed_events w _ _ _ Hev). cbn [fst snd s_events].
  split; [reflexivity|]. split; [exact Hchild|]. split; [reflexivity|].
  split; intros Hin; split_in Hin.
Qed.

(** X7: when something was discovered and writing the output file fails, the
    run prints the failure with its cause, then that the generation failed,
    and exits with status 1 without looking for the proxy. A file that could
    not be opened is left as it was; one that was opened holds what reached it
    before the failure. *)
Theorem write_failure_run (w : world) (entries : list dirent) (msg : string)
        (f : gmap string fs_object) :
  fs w !! "configs" = Some (Directory entries) ->
  glob_result w "configs" entries <> [] ->
  extraction_raises w = false ->
  failed_write w (extraction_fs w) "config.yaml" = Some (msg, f) ->
  final_status w = ExitStatus 1 /\
  events_of_run w =
    opening_events w ++
    [EvOpenW "config.yaml"; EvPrint ("Error writing config.yaml: " ++ msg);
     EvPrint "Config generation failed."] /\
  fs (final_world w) = f /\
  child (final_world w) = child w /\
  ((exists m, write_error w = Some (OpenFails m)) -> f = extraction_fs w).
Proof.
  intros Hc Hne Hx Hfw.
  destruct (after_extraction_started w) as (Ht & Hf & Hch).
  destruct (after_extraction_env (started w)) as (Hps & _ & _ & Hwe & _).
  assert (Hrun : run_script w =
                 (ExitStatus 1,
                  log (EvPrint "Config generation failed.")
                      (log (EvPrint (error_writing "config.yaml" (PyError msg)))
                           (set_fs f (log (EvOpenW "config.yaml")
                                          (after_extraction (started w))))))).
  { rewrite run_script_conclude, (main_reaches_pipeline w _ Hc Hx).
    rewrite (pipeline_write_fails _ entries msg f); [reflexivity| | |].
    - rewrite (after_extraction_lookup (started w) "configs") by discriminate. exact Hc.
    - rewrite (glob_result_env w _ "configs" entries Hps). exact Hne.
    - unfold failed_write in *. rewrite Hf, Hwe. exact Hfw. }
  unfold final_status, final_world, events_of_run. rewrite Hrun.
  rewrite (observed_events w _ _
             (opening_events w ++
              [EvOpenW "config.yaml"; EvPrint ("Error writing config.yaml: " ++ msg);
               EvPrint "Config generation failed."])).
  - cbn [fst snd s_events]. sim_world. repeat split; [exact Hch|].
    intros [m Hm]. unfold failed_write in Hfw. rewrite Hm in Hfw.
    destruct (extraction_fs w !! "config.yaml") as [[c|es]|];
      injection Hfw as _ <-; reflexivity.
  - sim_world. rewrite Ht, <- !app_assoc. reflexivity.
Qed.

(** X9: when the executable is in place but cannot be spawned, the run prints
    the error and exits with status 0: the generated file stays, no child
    exists, and nothing is waited for. *)
Theorem spawn_failure_run (w : world) (entries : list dirent) (o : fs_object)
        (msg : string) :
  generates w entries ->
  fs w !! llama_swap_executable w = Some o ->
  popen_error w = Some msg ->
  final_status w = ExitStatus 0 /\
  events_of_run w =
    generation_events w ++ launch_events w ++
    [EvPrint ("Error launching llama-swap: " ++ msg)] /\
  fs (final_world w) = generated_fs w entries /\
  child (final_world w) = child w /\
  ~ In EvWait (events_of_run w).
Proof.
  intros Hg Hexe Hp.
  destruct (generated_summary w entries) as (Hgt & Hgf & Hgc).
  destruct (generated_executable w entries) as [He Hl].
  destruct (generated_env w entries) as (_ & _ & Hpe & _).
  assert (Hrun : run_script w =
                 (ExitStatus 0,
                  log (EvPrint ("Error launching llama-swap: " ++ msg))
                      (launching_world (generated w entries)))).
  { rewrite run_script_conclude, (main_generates w entries Hg). unfold supervision.
    rewrite (bind_Ret _ _ _ _ _
               (launch_spawn_error (generated w entries) o msg
                  ltac:(rewrite He, Hl; exact Hexe) ltac:(rewrite Hpe; exact Hp))).
    reflexivity. }
  assert (Hev : trace (log (EvPrint ("Error launching llama-swap: " ++ msg))
                           (launching_world (generated w entries))) =
                trace w ++ generation_events w ++ launch_events w ++
                [EvPrint ("Error launching llama-swap: " ++ msg)]).
  { unfold launching_world, launch_events. sim_world.
    rewrite Hgt, He, <- !app_assoc. reflexivity. }
  unfold final_status, final_world, events_of_run. rewrite Hrun.
  rewrite (observed_events w _ _ _ Hev). cbn [fst snd s_events].
  unfold launching_world. sim_world.
  split; [reflexivity|]. split; [reflexivity|]. split; [exact Hgf|]. split; [exact Hgc|].
  intros Hin; split_in Hin.
Qed.

(** ** Worked examples of the further properties *)

Lemma spawns_only_after_write_witness :
  In (EvPopen ["/opt/kobold-swap/llama-swap"])
     (events_of_run (example_world [file_a] [WChildExits])) /\
  file_content "config.yaml" (final_world (example_world [file_a] [WChildExits])) =
    Some (example_dump [("models", [example_entry "a"])]).
Proof.
  assert (Hin : In (EvPopen ["/opt/kobold-swap/llama-swap"])
                   (events_of_run (example_world [file_a] [WChildExits])))
    by (vm_compute; auto 10).
  split; [exact Hin|].
  destruct (spawns_only_after_write (example_world [file_a] [WChildExits]) _ Hin)
    as (_ & _ & entries & pre & post & (Hc & _) & _ & _ & _ & Hfile).
  assert (E : entries = [file_a]).
  { assert (H : fs (example_world [file_a] [WChildExits]) !! "configs" =
                Some (Directory [file_a])) by reflexivity.
    rewrite H in Hc. injection Hc as <-. reflexivity. }
  rewrite Hfile, E. reflexivity.
Defined.

Lemma exit_leaves_no_running_child_witness :
  child (example_world [file_a] []) <> ChildRunning /\
  final_status (example_world [file_a] []) = NeverExits /\
  child (final_world (example_world [file_a] [])) = ChildRunning.
Proof.
  assert (H : child (example_world [file_a] []) <> ChildRunning) by discriminate.
  split; [exact H|]. split; [reflexivity|].
  apply (exit_leaves_no_running_child (example_world [file_a] []) H). reflexivity.
Defined.

Lemma identifier_names_its_file_witness :
  Str.endswith "llama.3.kcpps" ".kcpps" = true /\
  "llama.3.kcpps" <> ".kcpps" /\
  (extract_filename ["configs"; "llama.3.kcpps"] ++ ".kcpps")%string = "llama.3.kcpps".
Proof.
  split; [reflexivity|]. split; [discriminate|].
  apply (identifier_names_its_file "configs" "llama.3.kcpps"); [reflexivity|discriminate].
Defined.

Lemma distinct_names_distinct_entries_witness :
  is_windows (example_world_no_proxy mixed_listing) = false /\
  NoDup (map dirent_name mixed_listing) /\
  ~ In ".kcpps" (map dirent_name mixed_listing) /\
  length (build_models (glob_result (example_world_no_proxy mixed_listing) "configs"
                                    mixed_listing)) = 2%nat.
Proof.
  assert (Hnd : NoDup (map dirent_name mixed_listing)).
  { apply (bool_decide_unpack _). vm_compute. exact I. }
  assert (Hh : ~ In ".kcpps" (map dirent_name mixed_listing)).
  { simpl. intros [H|[H|[H|[]]]]; discriminate H. }
  split; [reflexivity|]. split; [exact Hnd|]. split; [exact Hh|].
  destruct (distinct_names_distinct_entries (example_world_no_proxy mixed_listing)
              "configs" mixed_listing eq_refl Hnd Hh) as (_ & _ & Hlen).
  rewrite Hlen. reflexivity.
Defined.

Lemma repeated_identifier_changes_nothing_witness :
  In (extract_filename ["configs"; ".kcpps.kcpps"])
     (map extract_filename [["configs"; ".kcpps"]; ["configs"; "a.kcpps"]]) /\
  build_models ([["configs"; ".kcpps"]; ["configs"; "a.kcpps"]] ++
                ["configs"; ".kcpps.kcpps"] :: [["configs"; "b.kcpps"]]) =
  build_models [["configs"; ".kcpps"]; ["configs"; "a.kcpps"]; ["configs"; "b.kcpps"]].
Proof.
  assert (Hin : In (extract_filename ["configs"; ".kcpps.kcpps"])
                   (map extract_filename [["configs"; ".kcpps"]; ["configs"; "a.kcpps"]]))
    by (left; reflexivity).
  split; [exact Hin|].
  apply (repeated_identifier_changes_nothing
           [["configs"; ".kcpps"]; ["configs"; "a.kcpps"]] [["configs"; "b.kcpps"]]
           ["configs"; ".kcpps.kcpps"] Hin).
Defined.

Lemma write_failure_run_witness :
  fs read_only_world !! "configs" = Some (Directory [file_a]) /\
  glob_result read_only_world "configs" [file_a] <> [] /\
  extraction_raises read_only_world = false /\
  failed_write read_only_world (extraction_fs read_only_world) "config.yaml" =
    Some ("[Errno 13] Permission denied: 'config.yaml'", extraction_fs read_only_world) /\
  final_status read_only_world = ExitStatus 1 /\
  In (EvPrint "Error writing config.yaml: [Errno 13] Permission denied: 'config.yaml'")
     (events_of_run read_only_world).
Proof.
  assert (Hne : glob_result read_only_world "configs" [file_a] <> []) by discriminate.
  split; [reflexivity|]. split; [exact Hne|]. split; [reflexivity|]. split; [reflexivity|].
  destruct (write_failure_run read_only_world [file_a] _ _ eq_refl Hne eq_refl eq_refl)
    as (Hst & Hev & _).
  split; [exact Hst|]. rewrite Hev, in_app_iff. right. right. left. reflexivity.
Defined.

Lemma spawn_failure_run_witness :
  generates not_executable_world [file_a] /\
  fs not_executable_world !! llama_swap_executable not_executable_world =
    Some (RegularFile "text") /\
  popen_error not_executable_world =
    Some "[Errno 13] Permission denied: '/opt/kobold-swap/llama-swap'" /\
  final_status not_executable_world = ExitStatus 0 /\
  child (final_world not_executable_world) = NoChild.
Proof.
  assert (Hg : generates not_executable_world [file_a])
    by (apply generates_example; reflexivity).
  split; [exact Hg|]. split; [reflexivity|]. split; [reflexivity|].
  destruct (spawn_failure_run not_executable_world [file_a] (RegularFile "text")
              _ Hg eq_refl eq_refl) as (Hst & _ & _ & Hchild & _).
  split; [exact Hst|exact Hchild].
Defined.

Lemma extraction_failure_aborts_witness :
  fs no_koboldcpp_world !! "configs" = Some (Directory [file_a]) /\
  fs no_koboldcpp_world !! "kcpp-extracted" = None /\
  unpack_outcome no_koboldcpp_world =
    RunRaises "[Errno 2] No such file or directory: 'koboldcpp'" /\
  final_status no_koboldcpp_world = ExitStatus 1 /\
  fs (final_world no_koboldcpp_world) = fs no_koboldcpp_world.
Proof.
  split; [reflexivity|]. split; [reflexivity|]. split; [reflexivity|].
  destruct (extraction_failure_aborts no_koboldcpp_world (Directory [file_a]) _
              eq_refl eq_refl eq_refl) as (Hst & _ & Hfs & _).
  split; [exact Hst|exact Hfs].
Defined.

Lemma configs_not_a_directory_witness :
  fs configs_is_a_file !! "configs" = Some (RegularFile "a.kcpps") /\
  extraction_raises configs_is_a_file = false /\
  final_status configs_is_a_file = ExitStatus 0 /\
  fs (final_world configs_is_a_file) !! "config.yaml" = Some (RegularFile "models: {}").
Proof.
  split; [reflexivity|]. split; [reflexivity|].
  destruct (configs_not_a_directory configs_is_a_file "a.kcpps" eq_refl eq_refl)
    as (Hst & _ & Hfile & _).
  split; [exact Hst|]. rewrite Hfile. reflexivity.
Defined.

Lemma child_exit_ends_run_witness :
  generates (example_world [file_a] [WChildExits]) [file_a] /\
  fs (example_world [file_a] [WChildExits])
    !! llama_swap_executable (example_world [file_a] [WChildExits]) =
    Some (RegularFile "ELF") /\
  popen_error (example_world [file_a] [WChildExits]) = None /\
  wait_events (example_world [file_a] [WChildExits]) = WChildExits :: [] /\
  final_status (example_world [file_a] [WChildExits]) = ExitStatus 0 /\
  child (final_world (example_world [file_a] [WChildExits])) = ChildExited.
Proof.
  assert (Hg : generates (example_world [file_a] [WChildExits]) [file_a])
    by (apply generates_example; reflexivity).
  split; [exact Hg|]. split; [reflexivity|]. split; [reflexivity|]. split; [reflexivity|].
  destruct (child_exit_ends_run (example_world [file_a] [WChildExits]) [file_a]
              (RegularFile "ELF") [] Hg eq_refl eq_refl eq_refl) as (Hst & Hch & _).
  split; [exact Hst|exact Hch].
Defined.


Lemma script_writes_two_paths_witness :
  (forall argv, ~ In (EvRun argv) (events_of_run extracted_no_proxy)) /\
  (forall argv, ~ In (EvPopen argv) (events_of_run extracted_no_proxy)) /\
  fs (final_world extracted_no_proxy) !! "kcpp-extracted" =
    Some (Directory [DFile "koboldcpp-launcher"]).
Proof.
  assert (Hrun : forall argv, ~ In (EvRun argv) (events_of_run extracted_no_proxy)).
  { intros argv H. vm_compute in H. intuition discriminate. }
  assert (Hpopen : forall argv, ~ In (EvPopen argv) (events_of_run extracted_no_proxy)).
  { intros argv H. vm_compute in H. intuition discriminate. }
  split; [exact Hrun|]. split; [exact Hpopen|].
  rewrite (proj1 (script_writes_two_paths extracted_no_proxy "kcpp-extracted"
                    Hrun Hpopen)) by discriminate.
  reflexivity.
Defined.
